(** * WordClock: a shallow embedding of the word-clock firmware

    The firmware (an Arduino sketch for an ATmega328P) turns the time of a
    DS3231 real-time clock into a set of lit words, lets two push buttons
    advance the hour and the minute, and writes an adjusted time back to the
    chip.  This file embeds the sketch function by function and proves
    properties of the time-to-word encoder, of the two advance functions,
    of the button handler and of the polling loop.

    The sketch embedded here is the later of the two revisions the
    repository holds (debounce 50 ms, repeat 1000 ms, reset year 2017).

    Integers are modelled as [Z] with the wrap-around of their C type
    written out: [uint8_t] wraps at 2^8, [unsigned long] and [uint32_t]
    at 2^32 (the AVR target has a 32-bit [unsigned long]). *)

From Stdlib Require Import ZArith List Bool Lia.
Import ListNotations.
Local Open Scope Z_scope.

(** ** Machine integers *)

Definition wrap8 (z : Z) : Z := z mod 2 ^ 8.
Definition wrap32 (z : Z) : Z := z mod 2 ^ 32.

(** ** Tuneable constants of the sketch *)

Definition BUTTON_DEBOUNCE_MS : Z := 50.
Definition BUTTON_HOLD_ACTION_REPEAT_PERIOD : Z := 1000.
Definition BUTTON_INACTION_RTC_UPDATE_DELAY : Z := 5000.
Definition RTC_QUERY_PERIOD_MILLIS : Z := 5000.
Definition RTC_RESET_YEAR : Z := 2017.
Definition RTC_RESET_MONTH : Z := 1.
Definition RTC_RESET_DAY : Z := 1.
Definition RTC_RESET_HOUR : Z := 0.
Definition RTC_RESET_MINUTE : Z := 0.
Definition RTC_RESET_SECOND : Z := 0.
Definition BITS_PER_BYTE : Z := 8.
Definition MS_PER_SECOND : Z := 1000.
Definition WORD_BIT_MAX : Z := 20.

(** ** The word enumeration and the local word register *)

Inductive word_bit_map : Set :=
| TEN_M | HALF_M | QUARTER_M | TWENTY_M | FIVE_M | MINUTES | PAST | TO
| ONE_H | TWO_H | THREE_H | FOUR_H | FIVE_H | SIX_H | SEVEN_H | EIGHT_H
| NINE_H | TEN_H | ELEVEN_H | TWELVE_H | OCLOCK.

(** The bit position the enumeration gives each word. *)
Definition bit_of (w : word_bit_map) : Z :=
  match w with
  | TEN_M => 20 | HALF_M => 19 | QUARTER_M => 18 | TWENTY_M => 17
  | FIVE_M => 16 | MINUTES => 15 | PAST => 14 | TO => 13
  | ONE_H => 12 | TWO_H => 11 | THREE_H => 10 | FOUR_H => 9
  | FIVE_H => 8 | SIX_H => 7 | SEVEN_H => 6 | EIGHT_H => 5
  | NINE_H => 4 | TEN_H => 3 | ELEVEN_H => 2 | TWELVE_H => 1
  | OCLOCK => 0
  end.

Definition all_words : list word_bit_map :=
  [TEN_M; HALF_M; QUARTER_M; TWENTY_M; FIVE_M; MINUTES; PAST; TO;
   ONE_H; TWO_H; THREE_H; FOUR_H; FIVE_H; SIX_H; SEVEN_H; EIGHT_H;
   NINE_H; TEN_H; ELEVEN_H; TWELVE_H; OCLOCK].

Definition hour_words : list word_bit_map :=
  [ONE_H; TWO_H; THREE_H; FOUR_H; FIVE_H; SIX_H; SEVEN_H; EIGHT_H;
   NINE_H; TEN_H; ELEVEN_H; TWELVE_H].

Definition minute_words : list word_bit_map :=
  [FIVE_M; TEN_M; QUARTER_M; TWENTY_M; HALF_M].

(** [getByte]: byte [byteIndex] of a 32-bit number, byte 0 the least
    significant. *)
Definition getByte (number byteIndex : Z) : Z :=
  let shifted := Z.shiftr number (byteIndex * BITS_PER_BYTE) in
  let targetByte := Z.land shifted 255 in
  targetByte.

(** [enableWord]: raise the word's bit in the local word register. *)
Definition enableWord (theWord : word_bit_map) (localWordRegister : Z) : Z :=
  let mask := wrap32 (Z.shiftl 1 (bit_of theWord)) in
  Z.lor localWordRegister mask.

(** [disableAllWords]: lower every bit of the local word register. *)
Definition disableAllWords (localWordRegister : Z) : Z := 0.

(** [updateLocalWordRegister]: the encoder.  [hour] and [minute] are
    [uint8_t]; the function returns the new local word register. *)
Definition updateLocalWordRegister (hour minute : Z) (localWordRegister : Z) : Z :=
  (* Start from a clean slate *)
  let reg := disableAllWords localWordRegister in
  (* Convert 24-hour time to 12-hour time *)
  let hour := if hour >? 12 then wrap8 (hour - 12) else hour in
  let hour := if hour =? 0 then 12 else hour in
  (* Handle the "minute" part of the time *)
  let reg :=
    if minute <? 5 then enableWord OCLOCK reg
    else if (minute >=? 5) && (minute <? 10) then enableWord FIVE_M reg
    else if (minute >=? 10) && (minute <? 15) then enableWord TEN_M reg
    else if (minute >=? 15) && (minute <? 20) then enableWord QUARTER_M reg
    else if (minute >=? 20) && (minute <? 25) then enableWord TWENTY_M reg
    else if (minute >=? 25) && (minute <? 30) then
      enableWord FIVE_M (enableWord TWENTY_M reg)
    else if (minute >=? 30) && (minute <? 35) then enableWord HALF_M reg
    else if (minute >=? 35) && (minute <? 40) then
      enableWord FIVE_M (enableWord TWENTY_M reg)
    else if (minute >=? 40) && (minute <? 45) then enableWord TWENTY_M reg
    else if (minute >=? 45) && (minute <? 50) then enableWord QUARTER_M reg
    else if (minute >=? 50) && (minute <? 55) then enableWord TEN_M reg
    else if minute >=? 55 then enableWord FIVE_M reg
    else reg in
  (* Handle the "hour" part of the time *)
  if minute <? 35 then
    let reg := if minute >=? 5 then enableWord PAST reg else reg in
    match hour with
    | 1 => enableWord ONE_H reg
    | 2 => enableWord TWO_H reg
    | 3 => enableWord THREE_H reg
    | 4 => enableWord FOUR_H reg
    | 5 => enableWord FIVE_H reg
    | 6 => enableWord SIX_H reg
    | 7 => enableWord SEVEN_H reg
    | 8 => enableWord EIGHT_H reg
    | 9 => enableWord NINE_H reg
    | 10 => enableWord TEN_H reg
    | 11 => enableWord ELEVEN_H reg
    | 12 => enableWord TWELVE_H reg
    | _ => reg
    end
  else
    let reg := enableWord TO reg in
    match hour with
    | 1 => enableWord TWO_H reg
    | 2 => enableWord THREE_H reg
    | 3 => enableWord FOUR_H reg
    | 4 => enableWord FIVE_H reg
    | 5 => enableWord SIX_H reg
    | 6 => enableWord SEVEN_H reg
    | 7 => enableWord EIGHT_H reg
    | 8 => enableWord NINE_H reg
    | 9 => enableWord TEN_H reg
    | 10 => enableWord ELEVEN_H reg
    | 11 => enableWord TWELVE_H reg
    | 12 => enableWord ONE_H reg
    | _ => reg
    end.

(** Reading a word register as a set of words. *)
Definition contains (reg : Z) (w : word_bit_map) : bool :=
  Z.testbit reg (bit_of w).

Definition words_of (reg : Z) : list word_bit_map :=
  filter (contains reg) all_words.

Definition hour_words_of (reg : Z) : list word_bit_map :=
  filter (contains reg) hour_words.

Definition minute_words_of (reg : Z) : list word_bit_map :=
  filter (contains reg) minute_words.

(** The encoder as a function of the time alone (the register it starts
    from is cleared first, so any will do). *)
Definition encode (hour minute : Z) : Z :=
  updateLocalWordRegister hour minute 0.

(** ** The real-time clock chip

    [DateTime] and [RTC_DS3231] come from RTClib; the chip is an external
    device.  It is modelled as a register holding a [DateTime] and the
    lost-power flag: [rtc.now()] returns the register, [rtc.adjust(dt)]
    replaces it and clears the flag.  The chip's own ticking is an input of
    each loop iteration (see [Input]). *)

Record DateTime : Set := mkDateTime {
  dt_year : Z; dt_month : Z; dt_day : Z;
  dt_hour : Z; dt_minute : Z; dt_second : Z }.

Record RTC_DS3231 : Set := mkRTC {
  rtc_time : DateTime;
  rtc_lostPower : bool }.

(** ** Pins and observable calls *)

Inductive PinLevel : Set := LOW | HIGH.

Definition PinLevel_eqb (a b : PinLevel) : bool :=
  match a, b with
  | LOW, LOW | HIGH, HIGH => true
  | _, _ => false
  end.

(** The calls a run leaves behind, oldest first: the two advance functions,
    the chip's [now] (with its answer) and [adjust], and each flush of the
    word register with the three bytes it shifts out. *)
Inductive Event : Set :=
| EvAdvanceHour
| EvAdvanceMinute
| EvRtcNow (answer : DateTime)
| EvRtcAdjust (dt : DateTime)
| EvFlush (byte0 byte1 byte2 : Z).

(** ** Program state: the globals, the statics of
    [handleTimeAdjustButtons], the chip and the calls made so far *)

Record State : Type := mkState {
  currentHour : Z;
  currentMinute : Z;
  currentSecond : Z;
  lastRTCQueryTime : Z;
  timeLocallyUpdated : bool;
  localWordRegister : Z;
  rtc : RTC_DS3231;
  lastHourButtonChange : Z;
  lastMinuteButtonChange : Z;
  lastHourButtonValue : PinLevel;
  lastMinuteButtonValue : PinLevel;
  hourButtonBeingHeld : bool;
  minuteButtonBeingHeld : bool;
  nextHourAdvanceTime : Z;
  nextMinuteAdvanceTime : Z;
  updateRTCTime : Z;
  trace : list Event }.

Definition set_currentHour (v : Z) (s : State) : State :=
  mkState v (currentMinute s) (currentSecond s) (lastRTCQueryTime s)
    (timeLocallyUpdated s) (localWordRegister s) (rtc s)
    (lastHourButtonChange s) (lastMinuteButtonChange s) (lastHourButtonValue
    s) (lastMinuteButtonValue s) (hourButtonBeingHeld s)
    (minuteButtonBeingHeld s) (nextHourAdvanceTime s) (nextMinuteAdvanceTime
    s) (updateRTCTime s) (trace s).

Definition set_currentMinute (v : Z) (s : State) : State :=
  mkState (currentHour s) v (currentSecond s) (lastRTCQueryTime s)
    (timeLocallyUpdated s) (localWordRegister s) (rtc s)
    (lastHourButtonChange s) (lastMinuteButtonChange s) (lastHourButtonValue
    s) (lastMinuteButtonValue s) (hourButtonBeingHeld s)
    (minuteButtonBeingHeld s) (nextHourAdvanceTime s) (nextMinuteAdvanceTime
    s) (updateRTCTime s) (trace s).

Definition set_currentSecond (v : Z) (s : State) : State :=
  mkState (currentHour s) (currentMinute s) v (lastRTCQueryTime s)
    (timeLocallyUpdated s) (localWordRegister s) (rtc s)
    (lastHourButtonChange s) (lastMinuteButtonChange s) (lastHourButtonValue
    s) (lastMinuteButtonValue s) (hourButtonBeingHeld s)
    (minuteButtonBeingHeld s) (nextHourAdvanceTime s) (nextMinuteAdvanceTime
    s) (updateRTCTime s) (trace s).

Definition set_lastRTCQueryTime (v : Z) (s : State) : State :=
  mkState (currentHour s) (currentMinute s) (currentSecond s) v
    (timeLocallyUpdated s) (localWordRegister s) (rtc s)
    (lastHourButtonChange s) (lastMinuteButtonChange s) (lastHourButtonValue
    s) (lastMinuteButtonValue s) (hourButtonBeingHeld s)
    (minuteButtonBeingHeld s) (nextHourAdvanceTime s) (nextMinuteAdvanceTime
    s) (updateRTCTime s) (trace s).

Definition set_timeLocallyUpdated (v : bool) (s : State) : State :=
  mkState (currentHour s) (currentMinute s) (currentSecond s)
    (lastRTCQueryTime s) v (localWordRegister s) (rtc s)
    (lastHourButtonChange s) (lastMinuteButtonChange s) (lastHourButtonValue
    s) (lastMinuteButtonValue s) (hourButtonBeingHeld s)
    (minuteButtonBeingHeld s) (nextHourAdvanceTime s) (nextMinuteAdvanceTime
    s) (updateRTCTime s) (trace s).

Definition set_localWordRegister (v : Z) (s : State) : State :=
  mkState (currentHour s) (currentMinute s) (currentSecond s)
    (lastRTCQueryTime s) (timeLocallyUpdated s) v (rtc s)
    (lastHourButtonChange s) (lastMinuteButtonChange s) (lastHourButtonValue
    s) (lastMinuteButtonValue s) (hourButtonBeingHeld s)
    (minuteButtonBeingHeld s) (nextHourAdvanceTime s) (nextMinuteAdvanceTime
    s) (updateRTCTime s) (trace s).

Definition set_rtc (v : RTC_DS3231) (s : State) : State :=
  mkState (currentHour s) (currentMinute s) (currentSecond s)
    (lastRTCQueryTime s) (timeLocallyUpdated s) (localWordRegister s) v
    (lastHourButtonChange s) (lastMinuteButtonChange s) (lastHourButtonValue
    s) (lastMinuteButtonValue s) (hourButtonBeingHeld s)
    (minuteButtonBeingHeld s) (nextHourAdvanceTime s) (nextMinuteAdvanceTime
    s) (updateRTCTime s) (trace s).

Definition set_lastHourButtonChange (v : Z) (s : State) : State :=
  mkState (currentHour s) (currentMinute s) (currentSecond s)
    (lastRTCQueryTime s) (timeLocallyUpdated s) (localWordRegister s) (rtc
    s) v (lastMinuteButtonChange s) (lastHourButtonValue s)
    (lastMinuteButtonValue s) (hourButtonBeingHeld s) (minuteButtonBeingHeld
    s) (nextHourAdvanceTime s) (nextMinuteAdvanceTime s) (updateRTCTime s)
    (trace s).

Definition set_lastMinuteButtonChange (v : Z) (s : State) : State :=
  mkState (currentHour s) (currentMinute s) (currentSecond s)
    (lastRTCQueryTime s) (timeLocallyUpdated s) (localWordRegister s) (rtc
    s) (lastHourButtonChange s) v (lastHourButtonValue s)
    (lastMinuteButtonValue s) (hourButtonBeingHeld s) (minuteButtonBeingHeld
    s) (nextHourAdvanceTime s) (nextMinuteAdvanceTime s) (updateRTCTime s)
    (trace s).

Definition set_lastHourButtonValue (v : PinLevel) (s : State) : State :=
  mkState (currentHour s) (currentMinute s) (currentSecond s)
    (lastRTCQueryTime s) (timeLocallyUpdated s) (localWordRegister s) (rtc
    s) (lastHourButtonChange s) (lastMinuteButtonChange s) v
    (lastMinuteButtonValue s) (hourButtonBeingHeld s) (minuteButtonBeingHeld
    s) (nextHourAdvanceTime s) (nextMinuteAdvanceTime s) (updateRTCTime s)
    (trace s).

Definition set_lastMinuteButtonValue (v : PinLevel) (s : State) : State :=
  mkState (currentHour s) (currentMinute s) (currentSecond s)
    (lastRTCQueryTime s) (timeLocallyUpdated s) (localWordRegister s) (rtc
    s) (lastHourButtonChange s) (lastMinuteButtonChange s)
    (lastHourButtonValue s) v (hourButtonBeingHeld s) (minuteButtonBeingHeld
    s) (nextHourAdvanceTime s) (nextMinuteAdvanceTime s) (updateRTCTime s)
    (trace s).

Definition set_hourButtonBeingHeld (v : bool) (s : State) : State :=
  mkState (currentHour s) (currentMinute s) (currentSecond s)
    (lastRTCQueryTime s) (timeLocallyUpdated s) (localWordRegister s) (rtc
    s) (lastHourButtonChange s) (lastMinuteButtonChange s)
    (lastHourButtonValue s) (lastMinuteButtonValue s) v
    (minuteButtonBeingHeld s) (nextHourAdvanceTime s) (nextMinuteAdvanceTime
    s) (updateRTCTime s) (trace s).

Definition set_minuteButtonBeingHeld (v : bool) (s : State) : State :=
  mkState (currentHour s) (currentMinute s) (currentSecond s)
    (lastRTCQueryTime s) (timeLocallyUpdated s) (localWordRegister s) (rtc
    s) (lastHourButtonChange s) (lastMinuteButtonChange s)
    (lastHourButtonValue s) (lastMinuteButtonValue s) (hourButtonBeingHeld
    s) v (nextHourAdvanceTime s) (nextMinuteAdvanceTime s) (updateRTCTime s)
    (trace s).

Definition set_nextHourAdvanceTime (v : Z) (s : State) : State :=
  mkState (currentHour s) (currentMinute s) (currentSecond s)
    (lastRTCQueryTime s) (timeLocallyUpdated s) (localWordRegister s) (rtc
    s) (lastHourButtonChange s) (lastMinuteButtonChange s)
    (lastHourButtonValue s) (lastMinuteButtonValue s) (hourButtonBeingHeld
    s) (minuteButtonBeingHeld s) v (nextMinuteAdvanceTime s) (updateRTCTime
    s) (trace s).

Definition set_nextMinuteAdvanceTime (v : Z) (s : State) : State :=
  mkState (currentHour s) (currentMinute s) (currentSecond s)
    (lastRTCQueryTime s) (timeLocallyUpdated s) (localWordRegister s) (rtc
    s) (lastHourButtonChange s) (lastMinuteButtonChange s)
    (lastHourButtonValue s) (lastMinuteButtonValue s) (hourButtonBeingHeld
    s) (minuteButtonBeingHeld s) (nextHourAdvanceTime s) v (updateRTCTime s)
    (trace s).

Definition set_updateRTCTime (v : Z) (s : State) : State :=
  mkState (currentHour s) (currentMinute s) (currentSecond s)
    (lastRTCQueryTime s) (timeLocallyUpdated s) (localWordRegister s) (rtc
    s) (lastHourButtonChange s) (lastMinuteButtonChange s)
    (lastHourButtonValue s) (lastMinuteButtonValue s) (hourButtonBeingHeld
    s) (minuteButtonBeingHeld s) (nextHourAdvanceTime s)
    (nextMinuteAdvanceTime s) v (trace s).

Definition set_trace (v : list Event) (s : State) : State :=
  mkState (currentHour s) (currentMinute s) (currentSecond s)
    (lastRTCQueryTime s) (timeLocallyUpdated s) (localWordRegister s) (rtc
    s) (lastHourButtonChange s) (lastMinuteButtonChange s)
    (lastHourButtonValue s) (lastMinuteButtonValue s) (hourButtonBeingHeld
    s) (minuteButtonBeingHeld s) (nextHourAdvanceTime s)
    (nextMinuteAdvanceTime s) (updateRTCTime s) v.

(** ** What one iteration of [loop] reads from the outside world *)

Record Input : Set := mkInput {
  (** [digitalRead(HOUR_ADVANCE_BUTTON_PIN)] *)
  in_hourButton : PinLevel;
  (** [digitalRead(MINUTE_ADVANCE_BUTTON_PIN)] *)
  in_minuteButton : PinLevel;
  (** [millis()] as read in [handleTimeAdjustButtons] *)
  in_millisButtons : Z;
  (** [millis()] as read in [loop] *)
  in_millisLoop : Z;
  (** the time the chip has reached when the iteration starts *)
  in_rtc : DateTime }.

(** ** Device calls *)

Definition emit (e : Event) (s : State) : State :=
  set_trace (trace s ++ [e]) s.

(** [rtc.now()] *)
Definition rtc_now (s : State) : DateTime * State :=
  let answer := rtc_time (rtc s) in
  (answer, emit (EvRtcNow answer) s).

(** [rtc.adjust(dt)] *)
Definition rtc_adjust (dt : DateTime) (s : State) : State :=
  emit (EvRtcAdjust dt) (set_rtc (mkRTC dt false) s).

(** [flushWordRegister]: the three low bytes of the local word register go
    out to the latches, least significant byte first. *)
Definition flushWordRegister (s : State) : State :=
  emit (EvFlush (getByte (localWordRegister s) 0)
                (getByte (localWordRegister s) 1)
                (getByte (localWordRegister s) 2)) s.

(** [updateDisplay] *)
Definition updateDisplay (hour minute : Z) (s : State) : State :=
  let s := set_localWordRegister
             (updateLocalWordRegister hour minute (localWordRegister s)) s in
  flushWordRegister s.

(** [updateDisplayFromRTC] *)
Definition updateDisplayFromRTC (s : State) : State :=
  let '(timeRTC, s) := rtc_now s in
  let s := set_currentHour (dt_hour timeRTC) s in
  let s := set_currentMinute (dt_minute timeRTC) s in
  let s := set_currentSecond (dt_second timeRTC) s in
  updateDisplay (currentHour s) (currentMinute s) s.

(** ** The advance functions *)

(** [advanceHour(uint8_t* hour)]: the new value of [*hour]. *)
Definition advanceHour (hour : Z) : Z :=
  if hour <? 23 then wrap8 (hour + 1) else 0.

(** [advanceMinute(uint8_t* hour, uint8_t* minute)]: the new values of
    [*hour] and [*minute]. *)
Definition advanceMinute (hour minute : Z) : Z * Z :=
  if minute <? 59 then
    (* Typical case *)
    (hour, wrap8 (minute + 1))
  else
    (* Minute 59 -> 0 transition; increment the hour, too *)
    (wrap8 (hour + 1), 0).

(** [advanceHour(&currentHour)] *)
Definition advanceCurrentHour (s : State) : State :=
  emit EvAdvanceHour (set_currentHour (advanceHour (currentHour s)) s).

(** [advanceMinute(&currentHour, &currentMinute)] *)
Definition advanceCurrentMinute (s : State) : State :=
  let '(hour, minute) := advanceMinute (currentHour s) (currentMinute s) in
  emit EvAdvanceMinute (set_currentMinute minute (set_currentHour hour s)).

(** ** [handleTimeAdjustButtons], block by block *)

(** The debouncing samples: a level that differs from the last one read
    restarts that button's settling time. *)
Definition sampleButtons (hourButtonValue minuteButtonValue : PinLevel)
    (timeNow : Z) (s : State) : State :=
  let s := if negb (PinLevel_eqb hourButtonValue (lastHourButtonValue s))
           then set_lastHourButtonChange timeNow s else s in
  let s := if negb (PinLevel_eqb minuteButtonValue (lastMinuteButtonValue s))
           then set_lastMinuteButtonChange timeNow s else s in
  let s := set_lastHourButtonValue hourButtonValue s in
  let s := set_lastMinuteButtonValue minuteButtonValue s in
  s.

(** The hour button, once its samples are taken. *)
Definition hourButtonBlock (hourButtonValue : PinLevel) (timeNow : Z)
    (s : State) : State :=
  if wrap32 (timeNow - lastHourButtonChange s) >? BUTTON_DEBOUNCE_MS then
    (* the button state is settled *)
    if PinLevel_eqb hourButtonValue LOW then
      if eqb (hourButtonBeingHeld s) false then
        let s := advanceCurrentHour s in
        let s := set_currentSecond 0 s in
        let s := set_timeLocallyUpdated true s in
        let s := set_nextHourAdvanceTime
                   (wrap32 (timeNow + BUTTON_HOLD_ACTION_REPEAT_PERIOD)) s in
        let s := set_updateRTCTime
                   (wrap32 (timeNow + BUTTON_INACTION_RTC_UPDATE_DELAY)) s in
        let s := updateDisplay (currentHour s) (currentMinute s) s in
        set_hourButtonBeingHeld true s
      else if timeNow >=? nextHourAdvanceTime s then
        let s := advanceCurrentHour s in
        let s := set_currentSecond 0 s in
        let s := set_nextHourAdvanceTime
                   (wrap32 (timeNow + BUTTON_HOLD_ACTION_REPEAT_PERIOD)) s in
        let s := updateDisplay (currentHour s) (currentMinute s) s in
        set_updateRTCTime
          (wrap32 (timeNow + BUTTON_INACTION_RTC_UPDATE_DELAY)) s
      else s
    else set_hourButtonBeingHeld false s
  else s.

(** The minute button, once its samples are taken. *)
Definition minuteButtonBlock (minuteButtonValue : PinLevel) (timeNow : Z)
    (s : State) : State :=
  if wrap32 (timeNow - lastMinuteButtonChange s) >? BUTTON_DEBOUNCE_MS then
    (* the button state is settled *)
    if PinLevel_eqb minuteButtonValue LOW then
      if eqb (minuteButtonBeingHeld s) false then
        let s := advanceCurrentMinute s in
        let s := set_currentSecond 0 s in
        let s := set_timeLocallyUpdated true s in
        let s := set_nextMinuteAdvanceTime
                   (wrap32 (timeNow + BUTTON_HOLD_ACTION_REPEAT_PERIOD)) s in
        let s := set_updateRTCTime
                   (wrap32 (timeNow + BUTTON_INACTION_RTC_UPDATE_DELAY)) s in
        let s := updateDisplay (currentHour s) (currentMinute s) s in
        set_minuteButtonBeingHeld true s
      else if timeNow >=? nextMinuteAdvanceTime s then
        let s := advanceCurrentMinute s in
        let s := set_currentSecond 0 s in
        let s := set_nextMinuteAdvanceTime
                   (wrap32 (timeNow + BUTTON_HOLD_ACTION_REPEAT_PERIOD)) s in
        let s := set_updateRTCTime
                   (wrap32 (timeNow + BUTTON_INACTION_RTC_UPDATE_DELAY)) s in
        updateDisplay (currentHour s) (currentMinute s) s
      else s
    else set_minuteButtonBeingHeld false s
  else s.

(** The guard of the write-back to the chip. *)
Definition writeBackDue (timeNow : Z) (s : State) : bool :=
  eqb (timeLocallyUpdated s) true && (timeNow >? updateRTCTime s)
  && eqb (hourButtonBeingHeld s) false
  && eqb (minuteButtonBeingHeld s) false.

(** The [DateTime] the write-back hands to [rtc.adjust]. *)
Definition writeBackValue (timeRTC : DateTime) (s : State) : DateTime :=
  mkDateTime (dt_year timeRTC) (dt_month timeRTC) (dt_day timeRTC)
             (currentHour s) (currentMinute s)
             (wrap8 (BUTTON_INACTION_RTC_UPDATE_DELAY / MS_PER_SECOND)).

(** The write-back of a locally adjusted time. *)
Definition writeBackBlock (timeNow : Z) (s : State) : State :=
  if writeBackDue timeNow s then
    let '(timeRTC, s) := rtc_now s in
    let s := rtc_adjust (writeBackValue timeRTC s) s in
    let s := set_timeLocallyUpdated false s in
    set_updateRTCTime 0 s
  else s.

Definition handleTimeAdjustButtons (i : Input) (s : State) : State :=
  let hourButtonValue := in_hourButton i in
  let minuteButtonValue := in_minuteButton i in
  let timeNow := in_millisButtons i in
  let s := sampleButtons hourButtonValue minuteButtonValue timeNow s in
  let s := hourButtonBlock hourButtonValue timeNow s in
  let s := minuteButtonBlock minuteButtonValue timeNow s in
  writeBackBlock timeNow s.

(** ** [setup] and [loop] *)

(** [handleBrightnessControl] reads the potentiometer and sets the PWM duty
    of the latches' output-enable pin; it touches nothing of [State]. *)
Definition handleBrightnessControl (s : State) : State := s.

(** The guard of the periodic chip query in [loop]. *)
Definition rtcQueryDue (timeNow : Z) (s : State) : bool :=
  wrap32 (timeNow - lastRTCQueryTime s) >? RTC_QUERY_PERIOD_MILLIS.

Definition loop (i : Input) (s : State) : State :=
  let s := handleBrightnessControl s in
  let s := handleTimeAdjustButtons i s in
  let timeNow := in_millisLoop i in
  if rtcQueryDue timeNow s then
    if eqb (timeLocallyUpdated s) false then
      let s := updateDisplayFromRTC s in
      set_lastRTCQueryTime timeNow s
    else s
  else s.

(** The time the chip is reset to when it has lost power. *)
Definition RTC_RESET : DateTime :=
  mkDateTime RTC_RESET_YEAR RTC_RESET_MONTH RTC_RESET_DAY
             RTC_RESET_HOUR RTC_RESET_MINUTE RTC_RESET_SECOND.

(** [setup]; [startMillis] is what [millis()] returns at its end.  Pin
    modes and the debug LED are left out. *)
Definition setup (startMillis : Z) (s : State) : State :=
  (* If the RTC's lost power, reset it *)
  let s := if rtc_lostPower (rtc s) then rtc_adjust RTC_RESET s else s in
  let s := updateDisplayFromRTC s in
  set_lastRTCQueryTime startMillis s.

(** The state at power-up: every global and static at its initializer,
    the chip as it is found. *)
Definition initial_state (chip : RTC_DS3231) : State :=
  {| currentHour := 0; currentMinute := 0; currentSecond := 0;
     lastRTCQueryTime := 0; timeLocallyUpdated := false;
     localWordRegister := 0; rtc := chip;
     lastHourButtonChange := 0; lastMinuteButtonChange := 0;
     lastHourButtonValue := HIGH; lastMinuteButtonValue := HIGH;
     hourButtonBeingHeld := false; minuteButtonBeingHeld := false;
     nextHourAdvanceTime := 0; nextMinuteAdvanceTime := 0;
     updateRTCTime := 0; trace := [] |}.

Definition boot (chip : RTC_DS3231) (startMillis : Z) : State :=
  setup startMillis (initial_state chip).

(** Between two iterations the chip keeps its own time. *)
Definition chipRuns (i : Input) (s : State) : State :=
  set_rtc (mkRTC (in_rtc i) (rtc_lostPower (rtc s))) s.

(** One iteration of [loop] with the inputs it meets. *)
Definition tick (i : Input) (s : State) : State :=
  loop i (chipRuns i s).

(** A run of iterations. *)
Definition run (inputs : list Input) (s : State) : State :=
  fold_left (fun s i => tick i s) inputs s.

(** ** Reading a trace of calls *)

Definition is_hour_advance (e : Event) : bool :=
  match e with EvAdvanceHour => true | _ => false end.

Definition is_minute_advance (e : Event) : bool :=
  match e with EvAdvanceMinute => true | _ => false end.

Definition count (p : Event -> bool) (tr : list Event) : nat :=
  length (filter p tr).

(** The values handed to [rtc.adjust], oldest first. *)
Definition adjusts_of (tr : list Event) : list DateTime :=
  flat_map (fun e => match e with EvRtcAdjust dt => [dt] | _ => [] end) tr.

(** The answers of [rtc.now], oldest first. *)
Definition nows_of (tr : list Event) : list DateTime :=
  flat_map (fun e => match e with EvRtcNow dt => [dt] | _ => [] end) tr.

(** The calls made between two states of one run. *)
Definition new_events (before after : State) : list Event :=
  skipn (length (trace before)) (trace after).

(** Calls to the chip. *)
Definition is_rtc_call (e : Event) : bool :=
  match e with EvRtcNow _ | EvRtcAdjust _ => true | _ => false end.

Definition no_rtc_call (tr : list Event) : bool :=
  forallb (fun e => negb (is_rtc_call e)) tr.

(** The state [handleTimeAdjustButtons] has reached when it comes to the
    write-back. *)
Definition beforeWriteBack (i : Input) (s : State) : State :=
  let hourButtonValue := in_hourButton i in
  let minuteButtonValue := in_minuteButton i in
  let timeNow := in_millisButtons i in
  let s := sampleButtons hourButtonValue minuteButtonValue timeNow s in
  let s := hourButtonBlock hourButtonValue timeNow s in
  minuteButtonBlock minuteButtonValue timeNow s.

(** While a local adjustment waits to be written back, the seconds of the
    local time are 0. *)
Definition pendingSecondZero (s : State) : Prop :=
  timeLocallyUpdated s = true -> currentSecond s = 0.

(** A button is only being held while a local adjustment waits to be
    written back. *)
Definition heldImpliesPending (s : State) : Prop :=
  hourButtonBeingHeld s || minuteButtonBeingHeld s = true ->
  timeLocallyUpdated s = true.

(** The two facts every reachable state satisfies. *)
Definition Invariant (s : State) : Prop :=
  heldImpliesPending s /\ pendingSecondZero s.

(** What stays as it is when a block makes no call. *)
Definition sameSync (s s' : State) : Prop :=
  trace s' = trace s
  /\ timeLocallyUpdated s' = timeLocallyUpdated s
  /\ updateRTCTime s' = updateRTCTime s
  /\ currentHour s' = currentHour s
  /\ currentMinute s' = currentMinute s
  /\ currentSecond s' = currentSecond s.

(** What holds after a block that advanced the time at [timeNow]. *)
Definition editedAt (timeNow : Z) (s s' : State) : Prop :=
  timeLocallyUpdated s' = true
  /\ updateRTCTime s' = wrap32 (timeNow + BUTTON_INACTION_RTC_UPDATE_DELAY)
  /\ currentSecond s' = 0
  /\ exists ev, trace s' = trace s ++ ev /\ no_rtc_call ev = true.

(** ** One button seen on its own

    [handleTimeAdjustButtons] repeats the same logic for the two buttons.
    [Button] gathers the four statics of one button and [buttonSample] is
    that logic for one sample; [hourButton_tick] and [minuteButton_tick]
    below prove that this is what the handler does to each button. *)

Record Button : Set := mkButton {
  lastChange : Z;
  lastValue : PinLevel;
  beingHeld : bool;
  nextAdvanceTime : Z }.

Definition hourButton (s : State) : Button :=
  mkButton (lastHourButtonChange s) (lastHourButtonValue s)
           (hourButtonBeingHeld s) (nextHourAdvanceTime s).

Definition minuteButton (s : State) : Button :=
  mkButton (lastMinuteButtonChange s) (lastMinuteButtonValue s)
           (minuteButtonBeingHeld s) (nextMinuteAdvanceTime s).

(** The time of the last observed level change, once [value] is sampled at
    [timeNow]. *)
Definition changeTime (value : PinLevel) (timeNow : Z) (b : Button) : Z :=
  if negb (PinLevel_eqb value (lastValue b)) then timeNow else lastChange b.

(** Whether sampling [value] at [timeNow] fires an advance. *)
Definition fires (value : PinLevel) (timeNow : Z) (b : Button) : bool :=
  (wrap32 (timeNow - changeTime value timeNow b) >? BUTTON_DEBOUNCE_MS)
  && PinLevel_eqb value LOW
  && (eqb (beingHeld b) false || (timeNow >=? nextAdvanceTime b)).

(** The button after sampling [value] at [timeNow]. *)
Definition buttonSample (value : PinLevel) (timeNow : Z) (b : Button) : Button :=
  let settled :=
    wrap32 (timeNow - changeTime value timeNow b) >? BUTTON_DEBOUNCE_MS in
  mkButton (changeTime value timeNow b) value
    (if settled then PinLevel_eqb value LOW else beingHeld b)
    (if fires value timeNow b
     then wrap32 (timeNow + BUTTON_HOLD_ACTION_REPEAT_PERIOD)
     else nextAdvanceTime b).

(** A level that never settles: at each sample, at most the debounce
    interval has passed since the level last changed. *)
Fixpoint neverSettles (button : Input -> PinLevel) (value : PinLevel)
    (change : Z) (inputs : list Input) : Prop :=
  match inputs with
  | [] => True
  | i :: rest =>
      let change' :=
        if negb (PinLevel_eqb (button i) value)
        then in_millisButtons i else change in
      wrap32 (in_millisButtons i - change') <= BUTTON_DEBOUNCE_MS
      /\ neverSettles button (button i) change' rest
  end.

(** A button held down and sampled once per millisecond from time [t]. *)
Fixpoint heldFrom (button : Input -> PinLevel) (t : Z)
    (inputs : list Input) : Prop :=
  match inputs with
  | [] => True
  | i :: rest =>
      button i = LOW /\ in_millisButtons i = t
      /\ heldFrom button (t + 1) rest
  end.

(** The number of advances a button held down for [n] samples, one per
    millisecond, is to give: none for the first 51 samples (the level must
    have lasted more than the debounce interval), one at the 52nd, and one
    more each repeat period after that. *)
Definition advancesWhileHeld (n : Z) : Z :=
  if n <=? BUTTON_DEBOUNCE_MS + 1 then 0
  else 1 + (n - (BUTTON_DEBOUNCE_MS + 2)) / BUTTON_HOLD_ACTION_REPEAT_PERIOD.

(** What holds of a button that was released and is then held down from
    time [t0], after [k] samples taken one per millisecond. *)
Definition heldInvariant (t0 k : Z) (b : Button) : Prop :=
  (k = 0 -> lastValue b = HIGH /\ beingHeld b = false)
  /\ (1 <= k -> lastValue b = LOW /\ lastChange b = t0)
  /\ (1 <= k <= BUTTON_DEBOUNCE_MS + 1 -> beingHeld b = false)
  /\ (BUTTON_DEBOUNCE_MS + 2 <= k ->
      beingHeld b = true
      /\ nextAdvanceTime b
         = t0 + BUTTON_DEBOUNCE_MS + 1
           + BUTTON_HOLD_ACTION_REPEAT_PERIOD
             * ((k - (BUTTON_DEBOUNCE_MS + 2))
                / BUTTON_HOLD_ACTION_REPEAT_PERIOD + 1)).

(** ** The 12-hour reading of the encoder's input, in the words of the
    specification *)

(** [h = hour mod 12; if h == 0 then h = 12]. *)
Definition normalize12 (hour : Z) : Z :=
  let h := hour mod 12 in if h =? 0 then 12 else h.

(** [h+1], wrapping 12 to 1. *)
Definition next12 (h : Z) : Z := if h =? 12 then 1 else h + 1.

(** The word of a 12-hour hour. *)
Definition hour_word (h : Z) : option word_bit_map :=
  match h with
  | 1 => Some ONE_H | 2 => Some TWO_H | 3 => Some THREE_H
  | 4 => Some FOUR_H | 5 => Some FIVE_H | 6 => Some SIX_H
  | 7 => Some SEVEN_H | 8 => Some EIGHT_H | 9 => Some NINE_H
  | 10 => Some TEN_H | 11 => Some ELEVEN_H | 12 => Some TWELVE_H
  | _ => None
  end.

(** ** Bounded checks *)

(** [P] holds of [0], ..., [n-1]. *)
Fixpoint forall_below (n : nat) (P : Z -> bool) : bool :=
  match n with
  | O => true
  | S k => P (Z.of_nat k) && forall_below k P
  end.

(** [ws] is the one word [w]. *)
Definition only_word (ws : list word_bit_map) (w : option word_bit_map) : bool :=
  match ws, w with
  | [x], Some y => bit_of x =? bit_of y
  | _, _ => false
  end.

(** ** Reading what goes out to the latches *)

(** The register three bytes stand for, least significant byte first. *)
Definition register_of_bytes (byte0 byte1 byte2 : Z) : Z :=
  byte0 + 2 ^ 8 * byte1 + 2 ^ 16 * byte2.

(** The registers a trace shows, one per flush, oldest first. *)
Definition shown (tr : list Event) : list Z :=
  flat_map (fun e => match e with
                     | EvFlush b0 b1 b2 => [register_of_bytes b0 b1 b2]
                     | _ => []
                     end) tr.

(** The bytes of the last flush of a trace. *)
Fixpoint lastFlush (tr : list Event) : option (Z * Z * Z) :=
  match tr with
  | [] => None
  | e :: rest =>
      match lastFlush rest with
      | Some bytes => Some bytes
      | None => match e with
                | EvFlush b0 b1 b2 => Some (b0, b1, b2)
                | _ => None
                end
      end
  end.

(** ** The two display tests *)

(** [enableWord] as [testDisplay1] calls it, with a counter for the word:
    the bit at that position is raised. *)
Definition enableWordAt (theWord : Z) (localWordRegister : Z) : Z :=
  let mask := wrap32 (Z.shiftl 1 theWord) in
  Z.lor localWordRegister mask.

(** The body of the [for] loop of [testDisplay1] (the [delay] apart). *)
Definition testDisplay1_body (i : Z) (s : State) : State :=
  let s := set_localWordRegister (disableAllWords (localWordRegister s)) s in
  let s := set_localWordRegister (enableWordAt i (localWordRegister s)) s in
  flushWordRegister s.

(** The [for] loop of [testDisplay1] from [i] on; [None] when the fuel
    runs out before the loop ends. *)
Fixpoint testDisplay1_loop (fuel : nat) (i : Z) (s : State) : option State :=
  match fuel with
  | O => None
  | S fuel' =>
      if i <=? WORD_BIT_MAX
      then testDisplay1_loop fuel' (wrap8 (i + 1)) (testDisplay1_body i s)
      else Some s
  end.

(** [testDisplay1]: the display, one word at a time. *)
Definition testDisplay1 (fuel : nat) (s : State) : option State :=
  testDisplay1_loop fuel 0 s.

(** The [while] loop of [testDisplay2] from [hour]:[minute] on; [None]
    when the fuel runs out before the loop ends. *)
Fixpoint testDisplay2_loop (fuel : nat) (hour minute : Z) (s : State)
    : option State :=
  match fuel with
  | O => None
  | S fuel' =>
      if hour <? 24 then
        let s := updateDisplay hour minute s in
        let minute := wrap8 (minute + 5) in
        if minute >=? 60
        then testDisplay2_loop fuel' (wrap8 (hour + 1)) 0 s
        else testDisplay2_loop fuel' hour minute s
      else Some s
  end.

(** [testDisplay2]: all minutes of the day, five at a time, from 00:00. *)
Definition testDisplay2 (fuel : nat) (s : State) : option State :=
  testDisplay2_loop fuel 0 0 s.

(** The values the counter of [testDisplay1] takes, in order. *)
Fixpoint testDisplay1_steps (fuel : nat) (i : Z) : option (list Z) :=
  match fuel with
  | O => None
  | S fuel' =>
      if i <=? WORD_BIT_MAX
      then option_map (cons i) (testDisplay1_steps fuel' (wrap8 (i + 1)))
      else Some []
  end.

(** The times [testDisplay2] shows, in order. *)
Fixpoint testDisplay2_steps (fuel : nat) (hour minute : Z)
    : option (list (Z * Z)) :=
  match fuel with
  | O => None
  | S fuel' =>
      if hour <? 24 then
        option_map (cons (hour, minute))
          (if wrap8 (minute + 5) >=? 60
           then testDisplay2_steps fuel' (wrap8 (hour + 1)) 0
           else testDisplay2_steps fuel' hour (wrap8 (minute + 5)))
      else Some []
  end.

(** Two pairs of integers are the same. *)
Definition pair_eqb (p q : Z * Z) : bool :=
  (fst p =? fst q) && (snd p =? snd q).

(** [advanceMinute] on the pair of the hour and the minute. *)
Definition advanceMinutePair (time : Z * Z) : Z * Z :=
  advanceMinute (fst time) (snd time).

(** The latches show the local time: the local word register is the
    encoder's register of the local hour and minute, and the last flush
    sent its three bytes. *)
Definition displayConsistent (s : State) : Prop :=
  localWordRegister s = encode (currentHour s) (currentMinute s)
  /\ lastFlush (trace s)
     = Some (getByte (localWordRegister s) 0,
             getByte (localWordRegister s) 1,
             getByte (localWordRegister s) 2).

(** A time of day, as the chip is to report it. *)
Definition timeOfDay (dt : DateTime) : Prop :=
  0 <= dt_hour dt <= 23 /\ 0 <= dt_minute dt <= 59
  /\ 0 <= dt_second dt <= 59.

(** The local minute and second are in range and the local hour is a
    byte; so is what the chip holds. *)
Definition minutesInRange (s : State) : Prop :=
  (0 <= currentHour s <= 255 /\ 0 <= currentMinute s <= 59
   /\ 0 <= currentSecond s <= 59)
  /\ (0 <= dt_hour (rtc_time (rtc s)) <= 255
      /\ 0 <= dt_minute (rtc_time (rtc s)) <= 59
      /\ 0 <= dt_second (rtc_time (rtc s)) <= 59).

(** ** Scenarios *)

(** An iteration that reads both buttons and the counter at [t] (the loop
    reads the same counter value) while the chip shows [chip]. *)
Definition sample (hourLevel minuteLevel : PinLevel) (t : Z)
    (chip : DateTime) : Input :=
  mkInput hourLevel minuteLevel t t chip.

(** A chip that kept its power and shows 2024-03-09, [h]:[m]:[sec]. *)
Definition chipAt (h m sec : Z) : RTC_DS3231 :=
  mkRTC (mkDateTime 2024 3 9 h m sec) false.

Definition onThatDay (h m sec : Z) : DateTime := mkDateTime 2024 3 9 h m sec.

(** The hour button goes down at [t], is seen settled at [t + 100], goes up
    at [t + 110] and is seen settled again at [t + 170]. *)
Definition pressHourAt (t : Z) (chip : DateTime) : list Input :=
  [sample LOW HIGH (wrap32 t) chip;
   sample LOW HIGH (wrap32 (t + 100)) chip;
   sample HIGH HIGH (wrap32 (t + 110)) chip;
   sample HIGH HIGH (wrap32 (t + 170)) chip].

(** The same for the minute button. *)
Definition pressMinuteAt (t : Z) (chip : DateTime) : list Input :=
  [sample HIGH LOW (wrap32 t) chip;
   sample HIGH LOW (wrap32 (t + 100)) chip;
   sample HIGH HIGH (wrap32 (t + 110)) chip;
   sample HIGH HIGH (wrap32 (t + 170)) chip].

(** Iterations one millisecond apart, the loop reading the counter at
    [t], [t + 1], ... (modulo 2^32), with both buttons up. *)
Fixpoint idleFromb (t : Z) (inputs : list Input) : bool :=
  match inputs with
  | [] => true
  | i :: rest =>
      PinLevel_eqb (in_hourButton i) HIGH
      && PinLevel_eqb (in_minuteButton i) HIGH
      && (in_millisLoop i =? wrap32 t)
      && idleFromb (t + 1) rest
  end.

(** [n] such iterations. *)
Fixpoint idle (t : Z) (n : nat) (chip : DateTime) : list Input :=
  match n with
  | O => []
  | S k => sample HIGH HIGH (wrap32 t) chip :: idle (t + 1) k chip
  end.

(** Whether an iteration fires an advance, of either button. *)
Definition firesEither (i : Input) (s : State) : bool :=
  fires (in_hourButton i) (in_millisButtons i) (hourButton s)
  || fires (in_minuteButton i) (in_millisButtons i) (minuteButton s).

(** The counter reading of the latest iteration of a run that fired an
    advance, [latest] when none did. *)
Fixpoint lastAdvanceTime (inputs : list Input) (s : State)
    (latest : option Z) : option Z :=
  match inputs with
  | [] => latest
  | i :: rest =>
      lastAdvanceTime rest (tick i s)
        (if firesEither i s then Some (in_millisButtons i) else latest)
  end.

(** A pending adjustment has its deadline 5000 ms, by the 32-bit counter,
    after the latest advance. *)
Definition deadlineFollows (latest : option Z) (s : State) : Prop :=
  timeLocallyUpdated s = true ->
  exists t, latest = Some t
            /\ updateRTCTime s
               = wrap32 (t + BUTTON_INACTION_RTC_UPDATE_DELAY).

(** A button that is up at every sample, sampled once per millisecond
    from counter value [t] on (modulo 2^32). *)
Fixpoint releasedFromb (button : Input -> PinLevel) (t : Z)
    (inputs : list Input) : bool :=
  match inputs with
  | [] => true
  | i :: rest =>
      PinLevel_eqb (button i) HIGH
      && (in_millisButtons i =? wrap32 t)
      && releasedFromb button (t + 1) rest
  end.

(** ** The two buttons by name *)

Inductive ButtonId : Set := HourButton | MinuteButton.

(** The pin a button is read from. *)
Definition pinOf (which : ButtonId) : Input -> PinLevel :=
  match which with
  | HourButton => in_hourButton
  | MinuteButton => in_minuteButton
  end.

(** The statics that belong to a button. *)
Definition staticsOf (which : ButtonId) : State -> Button :=
  match which with
  | HourButton => hourButton
  | MinuteButton => minuteButton
  end.

(** The advance call a button makes. *)
Definition advanceOf (which : ButtonId) : Event -> bool :=
  match which with
  | HourButton => is_hour_advance
  | MinuteButton => is_minute_advance
  end.

(** The number of advances of a button between two states of a run. *)
Definition advances (which : ButtonId) (s s' : State) : Z :=
  Z.of_nat (count (advanceOf which) (new_events s s')).

(** A run during which neither button fires an advance. *)
Definition silent (inputs : list Input) (s : State) : Prop :=
  advances HourButton s (run inputs s) = 0
  /\ advances MinuteButton s (run inputs s) = 0.

(** The local time of a state. *)
Definition localTime (s : State) : Z * Z * Z :=
  (currentHour s, currentMinute s, currentSecond s).

(** [n] iterations one millisecond apart from time [t] on, with one button
    down and the other up. *)
Fixpoint holdButton (which : ButtonId) (t : Z) (n : nat)
    (chip : DateTime) : list Input :=
  match n with
  | O => []
  | S k =>
      match which with
      | HourButton => sample LOW HIGH (wrap32 t) chip
      | MinuteButton => sample HIGH LOW (wrap32 t) chip
      end :: holdButton which (t + 1) k chip
  end.

(** [n] iterations one millisecond apart from time [t] on, the hour button
    changing level at each of them and the minute button up. *)
Fixpoint bounceHour (level : PinLevel) (t : Z) (n : nat)
    (chip : DateTime) : list Input :=
  match n with
  | O => []
  | S k =>
      sample level HIGH (wrap32 t) chip
      :: bounceHour (match level with LOW => HIGH | HIGH => LOW end)
                    (t + 1) k chip
  end.

(** * Properties *)

(** ** Bounded checks and machine integers *)

Lemma forall_below_spec (n : nat) (P : Z -> bool) :
  forall_below n P = true ->
  forall z, 0 <= z < Z.of_nat n -> P z = true.
Proof.
  induction n as [|k IH]; simpl; intros H z Hz.
  - lia.
  - apply andb_prop in H as [Hk Hrest].
    destruct (Z.eq_dec z (Z.of_nat k)) as [->|Hne]; [exact Hk|].
    apply IH; [exact Hrest | lia].
Qed.

(** A check that passed on every hour of the day and minute of the hour
    holds of each of them. *)
Lemma checked_on_the_day (P : Z -> Z -> bool) :
  forall_below 24 (fun hour => forall_below 60 (P hour)) = true ->
  forall hour minute, 0 <= hour <= 23 -> 0 <= minute <= 59 ->
  P hour minute = true.
Proof.
  intros H hour minute Hh Hm.
  apply (forall_below_spec 60 (P hour)); [|lia].
  apply (forall_below_spec 24 (fun hour => forall_below 60 (P hour)) H).
  lia.
Qed.

Lemma wrap32_small (z : Z) : 0 <= z < 2 ^ 32 -> wrap32 z = z.
Proof. intro H. unfold wrap32. apply Z.mod_small. exact H. Qed.

(** The unsigned difference of two counter readings is the time elapsed
    between them, whether or not the counter wrapped in between. *)
Lemma wrap32_elapsed (last d : Z) :
  0 <= d < 2 ^ 32 -> wrap32 (wrap32 (last + d) - last) = d.
Proof.
  intro Hd. unfold wrap32.
  rewrite Zminus_mod_idemp_l.
  replace (last + d - last) with d by lia.
  apply Z.mod_small. exact Hd.
Qed.

(** ** The encoder *)

Lemma updateLocalWordRegister_clean (hour minute reg : Z) :
  updateLocalWordRegister hour minute reg = encode hour minute.
Proof. reflexivity. Qed.

Lemma contains_enableWord (w w' : word_bit_map) (reg : Z) :
  contains (enableWord w reg) w' = (bit_of w' =? bit_of w) || contains reg w'.
Proof.
  unfold contains, enableWord. rewrite Z.lor_spec, orb_comm. f_equal.
  destruct w, w'; reflexivity.
Qed.

Lemma contains_zero (w : word_bit_map) : contains 0 w = false.
Proof. unfold contains. apply Z.testbit_0_l. Qed.

Example encode_6_32 : words_of (encode 6 32) = [HALF_M; PAST; SIX_H].
Proof. reflexivity. Qed.

Example encode_6_58 : words_of (encode 6 58) = [FIVE_M; TO; SEVEN_H].
Proof. reflexivity. Qed.

Example encode_0_2 : words_of (encode 0 2) = [TWELVE_H; OCLOCK].
Proof. reflexivity. Qed.

(** On every hour of the day and minute of the hour: one hour word, and
    OCLOCK, PAST and TO each in its range of minutes. *)
Lemma word_classes_checked :
  forall_below 24 (fun hour => forall_below 60 (fun minute =>
    (length (hour_words_of (encode hour minute)) =? 1)%nat
    && eqb (contains (encode hour minute) OCLOCK) (minute <? 5)
    && eqb (contains (encode hour minute) PAST)
           ((5 <=? minute) && (minute <? 35))
    && eqb (contains (encode hour minute) TO) (35 <=? minute))) = true.
Proof. vm_compute. reflexivity. Qed.

(** C1: for every hour in [0,23] and minute in [0,59], the register the
    encoder produces holds exactly one of the twelve hour words, holds
    OCLOCK iff the minute is in [0,5), PAST iff it is in [5,35), and TO iff
    it is in [35,60). *)
Theorem encoder_word_classes (hour minute reg : Z) :
  0 <= hour <= 23 -> 0 <= minute <= 59 ->
  let r := updateLocalWordRegister hour minute reg in
  length (hour_words_of r) = 1%nat
  /\ (contains r OCLOCK = true <-> 0 <= minute < 5)
  /\ (contains r PAST = true <-> 5 <= minute < 35)
  /\ (contains r TO = true <-> 35 <= minute < 60).
Proof.
  intros Hh Hm r. subst r. rewrite updateLocalWordRegister_clean.
  pose proof (checked_on_the_day _ word_classes_checked hour minute Hh Hm)
    as Hcell.
  cbv beta in Hcell.
  repeat (apply andb_prop in Hcell as [Hcell ?]).
  apply Nat.eqb_eq in Hcell.
  repeat match goal with
         | H : eqb _ _ = true |- _ => apply eqb_prop in H
         end.
  split; [exact Hcell|].
  repeat match goal with
         | H : contains _ _ = _ |- _ => rewrite H; clear H
         end.
  rewrite andb_true_iff, !Z.ltb_lt, !Z.leb_le. lia.
Qed.

Lemma encoder_word_classes_witness :
  let r := updateLocalWordRegister 6 32 0 in
  length (hour_words_of r) = 1%nat
  /\ (contains r OCLOCK = true <-> 0 <= 32 < 5)
  /\ (contains r PAST = true <-> 5 <= 32 < 35)
  /\ (contains r TO = true <-> 35 <= 32 < 60).
Proof. apply (encoder_word_classes 6 32 0); lia. Defined.

Lemma bit_of_inj (x y : word_bit_map) : bit_of x = bit_of y -> x = y.
Proof. destruct x, y; simpl; intro H; try reflexivity; discriminate H. Qed.

Lemma only_word_spec (ws : list word_bit_map) (w : option word_bit_map) :
  only_word ws w = true -> map Some ws = [w].
Proof.
  destruct ws as [|x [|? ?]], w as [y|]; simpl; intro H; try discriminate H.
  apply Z.eqb_eq, bit_of_inj in H. now subst.
Qed.

(** On every hour of the day and minute of the hour: the only hour word is
    that of the 12-hour hour before minute 35 and of the next one from
    minute 35 on, with PAST from minute 5 and TO from minute 35. *)
Lemma hour_selection_checked :
  forall_below 24 (fun hour => forall_below 60 (fun minute =>
    if minute <? 35 then
      only_word (hour_words_of (encode hour minute))
                (hour_word (normalize12 hour))
      && implb (5 <=? minute) (contains (encode hour minute) PAST)
    else
      only_word (hour_words_of (encode hour minute))
                (hour_word (next12 (normalize12 hour)))
      && contains (encode hour minute) TO)) = true.
Proof. vm_compute. reflexivity. Qed.

(** C6: for every hour in [0,23] and minute in [0,59], with
    [h = hour mod 12] and 0 mapped to 12: before minute 35 the only hour
    word of the register is the word of [h], with PAST from minute 5 on;
    from minute 35 on the register holds TO and its only hour word is the
    word of [h+1], 12 wrapping to 1.  In particular 0:40 and 12:40 both
    give ONE_H and TO. *)
Theorem encoder_hour_selection (hour minute reg : Z) :
  0 <= hour <= 23 -> 0 <= minute <= 59 ->
  let h := normalize12 hour in
  let r := updateLocalWordRegister hour minute reg in
  (minute < 35 ->
     map Some (hour_words_of r) = [hour_word h]
     /\ (5 <= minute -> contains r PAST = true))
  /\ (35 <= minute ->
     contains r TO = true
     /\ map Some (hour_words_of r) = [hour_word (next12 h)])
  /\ hour_words_of (encode 0 40) = [ONE_H]
  /\ contains (encode 0 40) TO = true
  /\ hour_words_of (encode 12 40) = [ONE_H]
  /\ contains (encode 12 40) TO = true.
Proof.
  intros Hh Hm h r. subst h r. rewrite updateLocalWordRegister_clean.
  pose proof (checked_on_the_day _ hour_selection_checked hour minute Hh Hm)
    as Hcell.
  cbv beta in Hcell.
  destruct (minute <? 35) eqn:Hlt;
    apply andb_prop in Hcell as [Hword Hrest]; apply only_word_spec in Hword.
  - apply Z.ltb_lt in Hlt. split; [|split].
    + intros _. split; [exact Hword|].
      intro H5. apply Z.leb_le in H5. rewrite H5 in Hrest. exact Hrest.
    + intro. lia.
    + repeat split; reflexivity.
  - apply Z.ltb_ge in Hlt. split; [|split].
    + intro. lia.
    + intros _. split; [exact Hrest | exact Hword].
    + repeat split; reflexivity.
Qed.

Lemma encoder_hour_selection_witness :
  (58 < 35 ->
     map Some (hour_words_of (updateLocalWordRegister 23 58 0))
     = [hour_word (normalize12 23)]
     /\ (5 <= 58 -> contains (updateLocalWordRegister 23 58 0) PAST = true))
  /\ (35 <= 58 ->
     contains (updateLocalWordRegister 23 58 0) TO = true
     /\ map Some (hour_words_of (updateLocalWordRegister 23 58 0))
        = [hour_word (next12 (normalize12 23))])
  /\ hour_words_of (encode 0 40) = [ONE_H]
  /\ contains (encode 0 40) TO = true
  /\ hour_words_of (encode 12 40) = [ONE_H]
  /\ contains (encode 12 40) TO = true.
Proof. apply (encoder_hour_selection 23 58 0); lia. Defined.

(** The minute words of a minute between 25 and 29, or between 35 and
    39: "twenty five". *)
Lemma twenty_five_minutes (hour minute : Z) :
  0 <= hour <= 23 -> 25 <= minute <= 29 \/ 35 <= minute <= 39 ->
  minute_words_of (encode hour minute) = [FIVE_M; TWENTY_M].
Proof.
  intros Hh Hm.
  assert (Hhour : In hour (map Z.of_nat (seq 0 24))).
  { apply in_map_iff. exists (Z.to_nat hour). split; [lia|].
    apply in_seq. lia. }
  assert (Hmin : In minute [25; 26; 27; 28; 29; 35; 36; 37; 38; 39])
    by (simpl; lia).
  clear Hh Hm. simpl in Hhour, Hmin.
  repeat (destruct Hhour as [<-|Hhour]; [|]); try contradiction;
    repeat (destruct Hmin as [<-|Hmin]; [|]); try contradiction;
    vm_compute; reflexivity.
Qed.

(** C9: for every hour in [0,23], the minute words of minute 27 and of
    minute 37 are the same pair, TWENTY_M and FIVE_M; so are those of every
    minute of bucket 5 (25-29) and of bucket 7 (35-39). *)
Theorem minute_bucket_symmetry (hour m5 m7 reg reg' : Z) :
  0 <= hour <= 23 -> 25 <= m5 <= 29 -> 35 <= m7 <= 39 ->
  minute_words_of (updateLocalWordRegister hour 27 reg)
  = minute_words_of (updateLocalWordRegister hour 37 reg')
  /\ minute_words_of (updateLocalWordRegister hour 27 reg) = [FIVE_M; TWENTY_M]
  /\ minute_words_of (updateLocalWordRegister hour m5 reg) = [FIVE_M; TWENTY_M]
  /\ minute_words_of (updateLocalWordRegister hour m7 reg') = [FIVE_M; TWENTY_M].
Proof.
  intros Hh H5 H7. rewrite !updateLocalWordRegister_clean.
  rewrite !twenty_five_minutes by lia. repeat split.
Qed.

Lemma minute_bucket_symmetry_witness :
  minute_words_of (updateLocalWordRegister 9 27 0)
  = minute_words_of (updateLocalWordRegister 9 37 0).
Proof.
  apply (minute_bucket_symmetry 9 27 37 0 0); lia.
Defined.

(** Raising the bit of another word leaves MINUTES as it was. *)
Lemma enableWord_keeps_MINUTES (w : word_bit_map) (reg : Z) :
  w <> MINUTES ->
  contains (enableWord w reg) MINUTES = contains reg MINUTES.
Proof.
  intro Hw. rewrite contains_enableWord.
  destruct w; try reflexivity. now elim Hw.
Qed.

(** C10: whatever the hour, the minute and the register it starts from,
    the register the encoder produces does not hold MINUTES (bit 15 of the
    enumeration): no input makes the encoder enable it. *)
Theorem encoder_never_MINUTES (hour minute reg : Z) :
  contains (updateLocalWordRegister hour minute reg) MINUTES = false
  /\ bit_of MINUTES = 15
  /\ In MINUTES all_words.
Proof.
  split; [|split; [reflexivity | simpl; tauto]].
  unfold updateLocalWordRegister, disableAllWords.
  set (h := if (if hour >? 12 then wrap8 (hour - 12) else hour) =? 0
            then 12 else (if hour >? 12 then wrap8 (hour - 12) else hour)).
  clearbody h.
  repeat match goal with
         | |- context [if ?c then _ else _] => destruct c
         end;
    repeat match goal with
           | |- context [match ?x with _ => _ end] => destruct x
           end;
    rewrite ?enableWord_keeps_MINUTES by discriminate;
    apply contains_zero.
Qed.

(** ** The advance functions *)

Lemma advanceHour_in_range (hour : Z) :
  0 <= hour <= 23 ->
  0 <= advanceHour hour <= 23
  /\ (hour = 23 -> advanceHour hour = 0)
  /\ (hour < 23 -> advanceHour hour = hour + 1).
Proof.
  intro H. unfold advanceHour, wrap8.
  destruct (hour <? 23) eqn:E.
  - apply Z.ltb_lt in E. rewrite Z.mod_small by lia. lia.
  - apply Z.ltb_ge in E. lia.
Qed.

Lemma advanceMinute_below_59 (hour minute : Z) :
  0 <= minute < 59 -> advanceMinute hour minute = (hour, minute + 1).
Proof.
  intro H. unfold advanceMinute, wrap8.
  destruct (minute <? 59) eqn:E.
  - rewrite Z.mod_small by lia. reflexivity.
  - apply Z.ltb_ge in E. lia.
Qed.

Lemma advanceMinute_at_59 (hour : Z) :
  0 <= hour <= 23 -> advanceMinute hour 59 = (hour + 1, 0).
Proof.
  intro H. unfold advanceMinute, wrap8. simpl.
  rewrite Z.mod_small by lia. reflexivity.
Qed.

(** ** The button handler, block by block *)

Lemma count_snoc (p : Event -> bool) (tr : list Event) (e : Event) :
  count p (tr ++ [e]) = (count p tr + (if p e then 1 else 0))%nat.
Proof.
  unfold count. rewrite filter_app, length_app. simpl.
  destruct (p e); reflexivity.
Qed.

Ltac open_state s :=
  destruct s as [cH cM cS lq tlu reg chip hc mc hv mv hh mh nh nm ur tr].

Ltac blocks :=
  unfold writeBackBlock, writeBackDue, minuteButtonBlock, hourButtonBlock,
    sampleButtons, updateDisplayFromRTC, updateDisplay, flushWordRegister,
    rtc_adjust, rtc_now, advanceCurrentHour, advanceCurrentMinute, emit,
    chipRuns, hourButton, minuteButton.

Ltac counted := rewrite ?count_snoc; simpl; rewrite ?Nat.add_0_r.

Lemma chipRuns_buttons (i : Input) (s : State) :
  hourButton (chipRuns i s) = hourButton s
  /\ minuteButton (chipRuns i s) = minuteButton s
  /\ trace (chipRuns i s) = trace s.
Proof. open_state s. blocks. simpl. auto. Qed.

Lemma sampleButtons_buttons (vh vm : PinLevel) (t : Z) (s : State) :
  hourButton (sampleButtons vh vm t s)
  = mkButton (changeTime vh t (hourButton s)) vh
             (hourButtonBeingHeld s) (nextHourAdvanceTime s)
  /\ minuteButton (sampleButtons vh vm t s)
     = mkButton (changeTime vm t (minuteButton s)) vm
                (minuteButtonBeingHeld s) (nextMinuteAdvanceTime s)
  /\ trace (sampleButtons vh vm t s) = trace s.
Proof.
  open_state s. blocks. unfold changeTime. simpl.
  destruct vh, vm, hv, mv; simpl; auto.
Qed.

Lemma hourButtonBlock_buttons (v : PinLevel) (t : Z) (s : State) :
  let b := hourButton s in
  let settled := wrap32 (t - lastChange b) >? BUTTON_DEBOUNCE_MS in
  let fire := settled && PinLevel_eqb v LOW
              && (eqb (beingHeld b) false || (t >=? nextAdvanceTime b)) in
  hourButton (hourButtonBlock v t s)
  = mkButton (lastChange b) (lastValue b)
      (if settled then PinLevel_eqb v LOW else beingHeld b)
      (if fire then wrap32 (t + BUTTON_HOLD_ACTION_REPEAT_PERIOD)
       else nextAdvanceTime b)
  /\ minuteButton (hourButtonBlock v t s) = minuteButton s
  /\ count is_hour_advance (trace (hourButtonBlock v t s))
     = (count is_hour_advance (trace s) + (if fire then 1 else 0))%nat
  /\ count is_minute_advance (trace (hourButtonBlock v t s))
     = count is_minute_advance (trace s).
Proof.
  open_state s. blocks. simpl.
  destruct (wrap32 (t - hc) >? BUTTON_DEBOUNCE_MS), v, hh; simpl;
    try destruct (t >=? nh); simpl; counted; auto.
Qed.

Lemma minuteButtonBlock_buttons (v : PinLevel) (t : Z) (s : State) :
  let b := minuteButton s in
  let settled := wrap32 (t - lastChange b) >? BUTTON_DEBOUNCE_MS in
  let fire := settled && PinLevel_eqb v LOW
              && (eqb (beingHeld b) false || (t >=? nextAdvanceTime b)) in
  minuteButton (minuteButtonBlock v t s)
  = mkButton (lastChange b) (lastValue b)
      (if settled then PinLevel_eqb v LOW else beingHeld b)
      (if fire then wrap32 (t + BUTTON_HOLD_ACTION_REPEAT_PERIOD)
       else nextAdvanceTime b)
  /\ hourButton (minuteButtonBlock v t s) = hourButton s
  /\ count is_minute_advance (trace (minuteButtonBlock v t s))
     = (count is_minute_advance (trace s) + (if fire then 1 else 0))%nat
  /\ count is_hour_advance (trace (minuteButtonBlock v t s))
     = count is_hour_advance (trace s).
Proof.
  open_state s. blocks. simpl.
  destruct (wrap32 (t - mc) >? BUTTON_DEBOUNCE_MS), v, mh; simpl;
    try destruct (t >=? nm); simpl;
    try destruct (advanceMinute cH cM); simpl; counted; auto.
Qed.

Lemma writeBackBlock_buttons (t : Z) (s : State) :
  hourButton (writeBackBlock t s) = hourButton s
  /\ minuteButton (writeBackBlock t s) = minuteButton s
  /\ count is_hour_advance (trace (writeBackBlock t s))
     = count is_hour_advance (trace s)
  /\ count is_minute_advance (trace (writeBackBlock t s))
     = count is_minute_advance (trace s).
Proof.
  open_state s. blocks. simpl.
  destruct (eqb tlu true && (t >? ur) && eqb hh false && eqb mh false);
    simpl; counted; auto.
Qed.

Lemma loop_buttons (i : Input) (s : State) :
  let s' := handleTimeAdjustButtons i s in
  hourButton (loop i s) = hourButton s'
  /\ minuteButton (loop i s) = minuteButton s'
  /\ count is_hour_advance (trace (loop i s))
     = count is_hour_advance (trace s')
  /\ count is_minute_advance (trace (loop i s))
     = count is_minute_advance (trace s').
Proof.
  intro s'. unfold loop, handleBrightnessControl. fold s'.
  destruct (rtcQueryDue (in_millisLoop i) s'); [|auto].
  destruct (eqb (timeLocallyUpdated s') false); [|auto].
  open_state s'. blocks. simpl. counted. auto.
Qed.

(** What one iteration does to the hour button is [buttonSample], and it
    calls [advanceHour] exactly when [fires] says so. *)
Lemma hourButton_tick (i : Input) (s : State) :
  hourButton (tick i s)
  = buttonSample (in_hourButton i) (in_millisButtons i) (hourButton s)
  /\ count is_hour_advance (trace (tick i s))
     = (count is_hour_advance (trace s)
        + (if fires (in_hourButton i) (in_millisButtons i) (hourButton s)
           then 1 else 0))%nat.
Proof.
  unfold tick.
  destruct (loop_buttons i (chipRuns i s)) as (-> & _ & -> & _).
  unfold handleTimeAdjustButtons.
  set (t := in_millisButtons i). set (vh := in_hourButton i).
  set (vm := in_minuteButton i).
  set (s1 := sampleButtons vh vm t (chipRuns i s)).
  set (s2 := hourButtonBlock vh t s1).
  set (s3 := minuteButtonBlock vm t s2).
  destruct (writeBackBlock_buttons t s3) as (-> & _ & -> & _). subst s3.
  destruct (minuteButtonBlock_buttons vm t s2) as (_ & -> & _ & ->). subst s2.
  destruct (hourButtonBlock_buttons vh t s1) as (-> & _ & -> & _). subst s1.
  destruct (sampleButtons_buttons vh vm t (chipRuns i s)) as (-> & _ & ->).
  destruct (chipRuns_buttons i s) as (-> & _ & ->).
  unfold buttonSample, fires, hourButton. simpl. auto.
Qed.

(** The same for the minute button. *)
Lemma minuteButton_tick (i : Input) (s : State) :
  minuteButton (tick i s)
  = buttonSample (in_minuteButton i) (in_millisButtons i) (minuteButton s)
  /\ count is_minute_advance (trace (tick i s))
     = (count is_minute_advance (trace s)
        + (if fires (in_minuteButton i) (in_millisButtons i) (minuteButton s)
           then 1 else 0))%nat.
Proof.
  unfold tick.
  destruct (loop_buttons i (chipRuns i s)) as (_ & -> & _ & ->).
  unfold handleTimeAdjustButtons.
  set (t := in_millisButtons i). set (vh := in_hourButton i).
  set (vm := in_minuteButton i).
  set (s1 := sampleButtons vh vm t (chipRuns i s)).
  set (s2 := hourButtonBlock vh t s1).
  set (s3 := minuteButtonBlock vm t s2).
  destruct (writeBackBlock_buttons t s3) as (_ & -> & _ & ->). subst s3.
  destruct (minuteButtonBlock_buttons vm t s2) as (-> & _ & -> & _). subst s2.
  destruct (hourButtonBlock_buttons vh t s1) as (_ & -> & _ & ->). subst s1.
  destruct (sampleButtons_buttons vh vm t (chipRuns i s)) as (_ & -> & ->).
  destruct (chipRuns_buttons i s) as (_ & -> & ->).
  unfold buttonSample, fires, minuteButton. simpl. auto.
Qed.

(** ** Runs of iterations *)

Lemma run_cons (i : Input) (inputs : list Input) (s : State) :
  run (i :: inputs) s = run inputs (tick i s).
Proof. reflexivity. Qed.

Ltac button_fields :=
  cbn [lastValue lastChange beingHeld nextAdvanceTime
       PinLevel_eqb negb eqb andb orb] in *.

(** One step of a held button. *)
Lemma heldInvariant_step (t0 k : Z) (b : Button) :
  0 <= t0 -> 0 <= k ->
  t0 + k + BUTTON_HOLD_ACTION_REPEAT_PERIOD < 2 ^ 32 ->
  heldInvariant t0 k b ->
  heldInvariant t0 (k + 1) (buttonSample LOW (t0 + k) b)
  /\ (if fires LOW (t0 + k) b then 1 else 0)
     = advancesWhileHeld (k + 1) - advancesWhileHeld k.
Proof.
  unfold heldInvariant, advancesWhileHeld, buttonSample, fires, changeTime,
    BUTTON_DEBOUNCE_MS, BUTTON_HOLD_ACTION_REPEAT_PERIOD.
  intros Ht0 Hk Hfit (H0 & H1 & Hlow & Hhigh).
  destruct b as [change value held next]. button_fields.
  assert (Hwrap : wrap32 (t0 + k + 1000) = t0 + k + 1000)
    by (apply wrap32_small; lia).
  destruct (Z.eq_dec k 0) as [->|Hk0].
  - destruct (H0 eq_refl) as [-> ->]. button_fields.
    replace (t0 + 0 - (t0 + 0)) with 0 by lia.
    change (wrap32 0 >? 50) with false. button_fields.
    repeat split; intros; try lia; reflexivity.
  - destruct (H1 ltac:(lia)) as [-> ->]. button_fields.
    replace (t0 + k - t0) with k by lia.
    rewrite wrap32_small by lia.
    destruct (k >? 50) eqn:E; button_fields.
    + destruct (Z.eq_dec k 51) as [->|Hk51].
      * rewrite (Hlow ltac:(lia)). button_fields. rewrite Hwrap.
        repeat split; intros; try reflexivity; try lia;
          Z.div_mod_to_equations; lia.
      * destruct (Hhigh ltac:(lia)) as [-> ->]. button_fields.
        destruct (k + 1 <=? 50 + 1) eqn:E1; [lia|].
        destruct (k <=? 50 + 1) eqn:E2; [lia|].
        destruct (t0 + k >=? _) eqn:E3; rewrite ?Hwrap;
          repeat split; intros; try reflexivity;
          Z.div_mod_to_equations; lia.
    + rewrite (Hlow ltac:(lia)).
      destruct (k + 1 <=? 50 + 1) eqn:E1; [|lia].
      destruct (k <=? 50 + 1) eqn:E2; [|lia].
      repeat split; intros; try lia; reflexivity.
Qed.

Section OneButton.

(** One of the two buttons: the pin it is read from, its statics, and the
    advance call it makes. *)
Variable button : Input -> PinLevel.
Variable view : State -> Button.
Variable is_advance : Event -> bool.

Hypothesis view_tick : forall i s,
  view (tick i s) = buttonSample (button i) (in_millisButtons i) (view s)
  /\ count is_advance (trace (tick i s))
     = (count is_advance (trace s)
        + (if fires (button i) (in_millisButtons i) (view s)
           then 1 else 0))%nat.

(** A level that never settles fires no advance. *)
Lemma neverSettles_no_advance (inputs : list Input) :
  forall s,
  neverSettles button (lastValue (view s)) (lastChange (view s)) inputs ->
  count is_advance (trace (run inputs s)) = count is_advance (trace s).
Proof.
  induction inputs as [|i rest IH]; intros s H; [reflexivity|].
  rewrite run_cons. destruct H as [Hshort Hrest].
  destruct (view_tick i s) as [Hview Hcount].
  rewrite IH.
  - rewrite Hcount. unfold fires, changeTime.
    destruct (wrap32 _ >? BUTTON_DEBOUNCE_MS) eqn:E; [lia|].
    simpl. apply Nat.add_0_r.
  - rewrite Hview. simpl. exact Hrest.
Qed.

(** A button held down, sampled once per millisecond. *)
Lemma heldFrom_advances (t0 : Z) (inputs : list Input) :
  forall s k,
  0 <= t0 -> 0 <= k ->
  t0 + k + Z.of_nat (length inputs) + BUTTON_HOLD_ACTION_REPEAT_PERIOD
    <= 2 ^ 32 ->
  heldFrom button (t0 + k) inputs ->
  heldInvariant t0 k (view s) ->
  Z.of_nat (count is_advance (trace (run inputs s)))
  = Z.of_nat (count is_advance (trace s))
    + advancesWhileHeld (k + Z.of_nat (length inputs))
    - advancesWhileHeld k.
Proof.
  induction inputs as [|i rest IH]; intros s k Ht0 Hk Hfit Hheld Hinv.
  - simpl. replace (k + 0) with k by lia. lia.
  - rewrite run_cons. destruct Hheld as (Hlow & Htime & Hrest).
    simpl length in *. rewrite Nat2Z.inj_succ in *.
    destruct (view_tick i s) as [Hview Hcount].
    rewrite Hlow, Htime in Hview, Hcount.
    destruct (heldInvariant_step t0 k (view s) Ht0 Hk ltac:(lia) Hinv)
      as [Hinv' Hfire].
    rewrite (IH (tick i s) (k + 1)); try lia.
    + rewrite Hcount, Nat2Z.inj_add.
      replace (k + 1 + Z.of_nat (length rest))
        with (k + Z.succ (Z.of_nat (length rest))) by lia.
      destruct (fires LOW (t0 + k) (view s)); simpl Z.of_nat; lia.
    + replace (t0 + (k + 1)) with (t0 + k + 1) by lia. exact Hrest.
    + rewrite Hview. exact Hinv'.
Qed.

End OneButton.

(** ** The local time and the write-back, block by block *)

Lemma handleTimeAdjustButtons_split (i : Input) (s : State) :
  handleTimeAdjustButtons i s
  = writeBackBlock (in_millisButtons i) (beforeWriteBack i s).
Proof. reflexivity. Qed.

Lemma sameSync_refl (s : State) : sameSync s s.
Proof. unfold sameSync. auto 7. Qed.

Lemma sameSync_trans (s1 s2 s3 : State) :
  sameSync s1 s2 -> sameSync s2 s3 -> sameSync s1 s3.
Proof.
  unfold sameSync. intros (? & ? & ? & ? & ? & ?) (? & ? & ? & ? & ? & ?).
  repeat split; congruence.
Qed.

Lemma chipRuns_sync (i : Input) (s : State) :
  sameSync s (chipRuns i s)
  /\ rtc_time (rtc (chipRuns i s)) = in_rtc i
  /\ lastRTCQueryTime (chipRuns i s) = lastRTCQueryTime s.
Proof. open_state s. unfold sameSync. blocks. simpl. auto 10. Qed.

Lemma sampleButtons_sync (vh vm : PinLevel) (t : Z) (s : State) :
  sameSync s (sampleButtons vh vm t s)
  /\ rtc (sampleButtons vh vm t s) = rtc s
  /\ lastRTCQueryTime (sampleButtons vh vm t s) = lastRTCQueryTime s.
Proof.
  open_state s. unfold sameSync. blocks. simpl.
  destruct vh, vm, hv, mv; simpl; auto 10.
Qed.

Lemma hourButtonBlock_sync (v : PinLevel) (t : Z) (s : State) :
  let s' := hourButtonBlock v t s in
  rtc s' = rtc s
  /\ lastRTCQueryTime s' = lastRTCQueryTime s
  /\ minuteButtonBeingHeld s' = minuteButtonBeingHeld s
  /\ (heldImpliesPending s -> heldImpliesPending s')
  /\ (pendingSecondZero s -> pendingSecondZero s')
  /\ (if fires v t (mkButton (lastHourButtonChange s) v
                             (hourButtonBeingHeld s) (nextHourAdvanceTime s))
      then (heldImpliesPending s -> editedAt t s s')
           /\ hourButtonBeingHeld s' = true
      else sameSync s s').
Proof.
  open_state s.
  unfold sameSync, editedAt, fires, changeTime, heldImpliesPending,
    pendingSecondZero.
  blocks. simpl.
  destruct v; simpl; rewrite ?andb_false_r; simpl;
    destruct (wrap32 (t - hc) >? BUTTON_DEBOUNCE_MS), hh; simpl;
    try destruct (t >=? nh); simpl; auto 10;
    try (repeat split; auto; fail);
    (repeat split; try reflexivity; auto; intros;
     try (eexists; rewrite <- ?app_assoc; split; reflexivity)).
Qed.

Lemma minuteButtonBlock_sync (v : PinLevel) (t : Z) (s : State) :
  let s' := minuteButtonBlock v t s in
  rtc s' = rtc s
  /\ lastRTCQueryTime s' = lastRTCQueryTime s
  /\ hourButtonBeingHeld s' = hourButtonBeingHeld s
  /\ (heldImpliesPending s -> heldImpliesPending s')
  /\ (pendingSecondZero s -> pendingSecondZero s')
  /\ (if fires v t (mkButton (lastMinuteButtonChange s) v
                             (minuteButtonBeingHeld s)
                             (nextMinuteAdvanceTime s))
      then (heldImpliesPending s -> editedAt t s s')
           /\ minuteButtonBeingHeld s' = true
      else sameSync s s').
Proof.
  open_state s.
  unfold sameSync, editedAt, fires, changeTime, heldImpliesPending,
    pendingSecondZero.
  blocks. simpl.
  destruct v; simpl; rewrite ?andb_false_r; simpl;
    destruct (wrap32 (t - mc) >? BUTTON_DEBOUNCE_MS), mh, hh; simpl;
    try destruct (t >=? nm); simpl;
    try destruct (advanceMinute cH cM); simpl; auto 10;
    try (repeat split; auto; fail);
    (repeat split; try reflexivity; auto; intros;
     try (eexists; rewrite <- ?app_assoc; split; reflexivity)).
Qed.

Lemma fires_after_sample (v : PinLevel) (t : Z) (b : Button) :
  fires v t (mkButton (changeTime v t b) v (beingHeld b) (nextAdvanceTime b))
  = fires v t b.
Proof. unfold fires, changeTime. simpl. destruct v; reflexivity. Qed.

Lemma no_rtc_call_app (xs ys : list Event) :
  no_rtc_call xs = true -> no_rtc_call ys = true ->
  no_rtc_call (xs ++ ys) = true.
Proof.
  unfold no_rtc_call. intros Hx Hy. rewrite forallb_app, Hx, Hy. reflexivity.
Qed.

(** The buttons' part of [handleTimeAdjustButtons]: it calls the chip
    never; when neither button fires it leaves the local time and the
    pending write-back as they are; when one fires, a write-back is pending
    with its deadline 5000 ms ahead, the seconds are 0 and that button is
    being held. *)
Lemma beforeWriteBack_sync (i : Input) (s : State) :
  Invariant s ->
  let t := in_millisButtons i in
  let b := beforeWriteBack i s in
  let fired := fires (in_hourButton i) t (hourButton s)
               || fires (in_minuteButton i) t (minuteButton s) in
  Invariant b
  /\ rtc b = rtc s
  /\ lastRTCQueryTime b = lastRTCQueryTime s
  /\ (exists ev, trace b = trace s ++ ev /\ no_rtc_call ev = true)
  /\ (if fired
      then timeLocallyUpdated b = true
           /\ updateRTCTime b
              = wrap32 (t + BUTTON_INACTION_RTC_UPDATE_DELAY)
           /\ currentSecond b = 0
           /\ hourButtonBeingHeld b || minuteButtonBeingHeld b = true
      else sameSync s b).
Proof.
  intros [Hheld Hsec] t b fired. subst b fired. unfold beforeWriteBack.
  fold t. set (vh := in_hourButton i). set (vm := in_minuteButton i).
  destruct (sampleButtons_sync vh vm t s) as (Hsame1 & Hrtc1 & Hlq1).
  destruct (sampleButtons_buttons vh vm t s) as (Hh1 & Hm1 & _).
  set (s1 := sampleButtons vh vm t s) in *. clearbody s1.
  injection Hh1 as Hhc1 Hhv1 Hhh1 Hhn1.
  injection Hm1 as Hmc1 Hmv1 Hmh1 Hmn1.
  assert (Hheld1 : heldImpliesPending s1).
  { unfold heldImpliesPending in *.
    destruct Hsame1 as (_ & -> & _). rewrite Hhh1, Hmh1. exact Hheld. }
  assert (Hsec1 : pendingSecondZero s1).
  { unfold pendingSecondZero in *.
    destruct Hsame1 as (_ & -> & _ & _ & _ & ->). exact Hsec. }
  destruct (hourButtonBlock_sync vh t s1)
    as (Hrtc2 & Hlq2 & Hmh2 & Hheld2 & Hsec2 & Hfire2).
  destruct (hourButtonBlock_buttons vh t s1) as (_ & Hm2 & _).
  rewrite Hhc1, Hhh1, Hhn1 in Hfire2.
  change (fires vh t _)
    with (fires vh t (mkButton (changeTime vh t (hourButton s)) vh
                               (beingHeld (hourButton s))
                               (nextAdvanceTime (hourButton s)))) in Hfire2.
  rewrite fires_after_sample in Hfire2.
  set (s2 := hourButtonBlock vh t s1) in *. clearbody s2.
  injection Hm2 as Hmc2 Hmv2 Hmh2' Hmn2.
  destruct (minuteButtonBlock_sync vm t s2)
    as (Hrtc3 & Hlq3 & Hhh3 & Hheld3 & Hsec3 & Hfire3).
  rewrite Hmc2, Hmh2', Hmn2, Hmc1, Hmh1, Hmn1 in Hfire3.
  change (fires vm t _)
    with (fires vm t (mkButton (changeTime vm t (minuteButton s)) vm
                               (beingHeld (minuteButton s))
                               (nextAdvanceTime (minuteButton s)))) in Hfire3.
  rewrite fires_after_sample in Hfire3.
  set (s3 := minuteButtonBlock vm t s2) in *. clearbody s3.
  specialize (Hheld2 Hheld1). specialize (Hsec2 Hsec1).
  split; [split; auto|].
  split; [congruence|]. split; [congruence|].
  assert (Htr1 : trace s1 = trace s) by (destruct Hsame1; assumption).
  destruct (fires vh t (hourButton s)), (fires vm t (minuteButton s));
    simpl orb; cbv iota.
  - destruct Hfire2 as [Hed2 Hh2]. destruct Hfire3 as [Hed3 Hm3].
    destruct (Hed2 Hheld1) as (_ & _ & _ & ev2 & Htr2 & Hq2).
    destruct (Hed3 Hheld2) as (Hf & Hd & Hs & ev3 & Htr3 & Hq3).
    split.
    + exists (ev2 ++ ev3). rewrite Htr3, Htr2, Htr1, app_assoc.
      split; [reflexivity | apply no_rtc_call_app; assumption].
    + rewrite Hm3, orb_true_r. auto.
  - destruct Hfire2 as [Hed2 Hh2].
    destruct (Hed2 Hheld1) as (Hf & Hd & Hs & ev2 & Htr2 & Hq2).
    destruct Hfire3 as (Htr3 & Hf3 & Hd3 & _ & _ & Hs3).
    split.
    + exists ev2. rewrite Htr3, Htr2, Htr1. auto.
    + rewrite Hf3, Hd3, Hs3, Hhh3, Hh2. auto.
  - destruct Hfire2 as (Htr2 & _). destruct Hfire3 as [Hed3 Hm3].
    destruct (Hed3 Hheld2) as (Hf & Hd & Hs & ev3 & Htr3 & Hq3).
    split.
    + exists ev3. rewrite Htr3, Htr2, Htr1. auto.
    + rewrite Hm3, orb_true_r. auto.
  - split.
    + exists []. rewrite app_nil_r.
      destruct Hfire3 as (-> & _). destruct Hfire2 as (-> & _). auto.
    + apply (sameSync_trans _ s1); [exact Hsame1|].
      apply (sameSync_trans _ s2); assumption.
Qed.

(** The write-back: when its guard holds it asks the chip for the date,
    hands [rtc.adjust] that date with the local hour and minute and 5
    seconds, and clears the pending flag; otherwise it does nothing. *)
Lemma writeBackBlock_sync (t : Z) (s : State) :
  let s' := writeBackBlock t s in
  if writeBackDue t s then
    trace s' = trace s ++ [EvRtcNow (rtc_time (rtc s));
                           EvRtcAdjust (writeBackValue (rtc_time (rtc s)) s)]
    /\ rtc s' = mkRTC (writeBackValue (rtc_time (rtc s)) s) false
    /\ timeLocallyUpdated s' = false
    /\ updateRTCTime s' = 0
    /\ currentHour s' = currentHour s
    /\ currentMinute s' = currentMinute s
    /\ currentSecond s' = currentSecond s
    /\ lastRTCQueryTime s' = lastRTCQueryTime s
    /\ hourButtonBeingHeld s' = hourButtonBeingHeld s
    /\ minuteButtonBeingHeld s' = minuteButtonBeingHeld s
  else s' = s.
Proof.
  intro s'. subst s'. unfold writeBackBlock.
  destruct (writeBackDue t s); [|reflexivity].
  open_state s. unfold writeBackValue. blocks. simpl.
  rewrite <- app_assoc. simpl. auto 15.
Qed.

Lemma writeBackDue_true (t : Z) (s : State) :
  writeBackDue t s = true <->
  timeLocallyUpdated s = true /\ updateRTCTime s < t
  /\ hourButtonBeingHeld s = false /\ minuteButtonBeingHeld s = false.
Proof.
  unfold writeBackDue.
  rewrite !andb_true_iff, !eqb_true_iff. rewrite Z.gtb_lt. tauto.
Qed.

(** The periodic query of [loop]: when it is due and no adjustment is
    pending it asks the chip for the time, takes it as the local time and
    shows it; otherwise [loop] stops where the handler stopped. *)
Lemma loop_sync (i : Input) (s : State) :
  let h := handleTimeAdjustButtons i s in
  let s' := loop i s in
  if rtcQueryDue (in_millisLoop i) h && negb (timeLocallyUpdated h) then
    exists render,
      trace s' = trace h ++ [EvRtcNow (rtc_time (rtc h)); render]
      /\ is_rtc_call render = false
      /\ currentHour s' = dt_hour (rtc_time (rtc h))
      /\ currentMinute s' = dt_minute (rtc_time (rtc h))
      /\ currentSecond s' = dt_second (rtc_time (rtc h))
      /\ timeLocallyUpdated s' = false
      /\ updateRTCTime s' = updateRTCTime h
      /\ lastRTCQueryTime s' = in_millisLoop i
      /\ hourButtonBeingHeld s' = hourButtonBeingHeld h
      /\ minuteButtonBeingHeld s' = minuteButtonBeingHeld h
  else s' = h.
Proof.
  intros h s'. subst s'. unfold loop, handleBrightnessControl. fold h.
  destruct (rtcQueryDue (in_millisLoop i) h); [|reflexivity].
  destruct (timeLocallyUpdated h) eqn:E; [reflexivity|]. simpl.
  open_state h. simpl in E. subst tlu. blocks. simpl.
  eexists. rewrite <- app_assoc. simpl. repeat split.
Qed.

(** ** Invariants of a run *)

Lemma chipRuns_invariant (i : Input) (s : State) :
  Invariant s -> Invariant (chipRuns i s).
Proof.
  unfold Invariant, heldImpliesPending, pendingSecondZero.
  open_state s. blocks. simpl. auto.
Qed.

Lemma handleTimeAdjustButtons_invariant (i : Input) (s : State) :
  Invariant s -> Invariant (handleTimeAdjustButtons i s).
Proof.
  intro Hinv. rewrite handleTimeAdjustButtons_split.
  destruct (beforeWriteBack_sync i s Hinv) as (Hb & _).
  pose proof (writeBackBlock_sync (in_millisButtons i) (beforeWriteBack i s))
    as Hwb. cbv zeta in Hwb.
  destruct (writeBackDue _ _) eqn:Hdue.
  - destruct Hwb as (_ & _ & Hf & _ & _ & _ & _ & _ & Hhh & Hmh).
    apply writeBackDue_true in Hdue as (_ & _ & Hh0 & Hm0).
    unfold Invariant, heldImpliesPending, pendingSecondZero.
    rewrite Hf, Hhh, Hmh, Hh0, Hm0. split; discriminate.
  - rewrite Hwb. exact Hb.
Qed.

Lemma tick_invariant (i : Input) (s : State) :
  Invariant s -> Invariant (tick i s).
Proof.
  intro Hinv. unfold tick.
  pose proof (handleTimeAdjustButtons_invariant i _
                (chipRuns_invariant i s Hinv)) as Hh.
  pose proof (loop_sync i (chipRuns i s)) as Hloop. cbv zeta in Hloop.
  destruct (rtcQueryDue _ _ && negb _) eqn:Hdue.
  - destruct Hloop as (render & _ & _ & _ & _ & _ & Hf & _ & _ & Hhh & Hmh).
    apply andb_prop in Hdue as [_ Hflag]. apply negb_true_iff in Hflag.
    destruct Hh as [Hheld _].
    unfold Invariant, heldImpliesPending, pendingSecondZero in *.
    rewrite Hf, Hhh, Hmh. rewrite Hflag in Hheld. split; auto. discriminate.
  - rewrite Hloop. exact Hh.
Qed.

Lemma boot_invariant (chip : RTC_DS3231) (startMillis : Z) :
  Invariant (boot chip startMillis).
Proof.
  unfold Invariant, heldImpliesPending, pendingSecondZero, boot, setup,
    initial_state.
  blocks. simpl. destruct (rtc_lostPower chip); simpl; split; discriminate.
Qed.

Lemma run_invariant (inputs : list Input) :
  forall s, Invariant s -> Invariant (run inputs s).
Proof.
  induction inputs as [|i rest IH]; intros s Hinv; [exact Hinv|].
  rewrite run_cons. apply IH, tick_invariant, Hinv.
Qed.

(** ** What is written back to the chip *)

Lemma skipn_length_app {A : Type} (xs ys : list A) :
  skipn (length xs) (xs ++ ys) = ys.
Proof. induction xs as [|x xs IH]; simpl; [reflexivity | exact IH]. Qed.

Lemma new_events_extends (s s' : State) (ev : list Event) :
  trace s' = trace s ++ ev -> new_events s s' = ev.
Proof. intro H. unfold new_events. rewrite H. apply skipn_length_app. Qed.

Lemma adjusts_of_app (xs ys : list Event) :
  adjusts_of (xs ++ ys) = adjusts_of xs ++ adjusts_of ys.
Proof. unfold adjusts_of. apply flat_map_app. Qed.

Lemma nows_of_app (xs ys : list Event) :
  nows_of (xs ++ ys) = nows_of xs ++ nows_of ys.
Proof. unfold nows_of. apply flat_map_app. Qed.

Lemma no_rtc_call_quiet (ev : list Event) :
  no_rtc_call ev = true -> adjusts_of ev = [] /\ nows_of ev = [].
Proof.
  induction ev as [|e ev IH]; simpl; intro H; [auto|].
  apply andb_prop in H as [He Hev]. destruct (IH Hev) as [-> ->].
  destruct e; simpl in *; auto; discriminate.
Qed.

(** C3 (as amended): in any run from power-up, when an iteration's handler
    calls [rtc.adjust], the guard of the write-back held (an adjustment was
    pending, the counter was past the write deadline, neither button was
    being held), the call is the only one of that iteration, and the value
    it hands over is the chip's date with the local hour and minute and
    with 5 seconds (the inaction delay, 5000 ms, in seconds), not the local
    seconds, which are 0 at that point; the pending flag is cleared. *)
Theorem write_back_value (chip : RTC_DS3231) (startMillis : Z)
    (inputs : list Input) (i : Input) (dt : DateTime) :
  let s := chipRuns i (run inputs (boot chip startMillis)) in
  let s' := handleTimeAdjustButtons i s in
  In dt (adjusts_of (new_events s s')) ->
  dt = mkDateTime (dt_year (in_rtc i)) (dt_month (in_rtc i))
                  (dt_day (in_rtc i))
                  (currentHour s') (currentMinute s')
                  (BUTTON_INACTION_RTC_UPDATE_DELAY / MS_PER_SECOND)
  /\ dt_second dt = 5
  /\ adjusts_of (new_events s s') = [dt]
  /\ currentSecond s' = 0
  /\ timeLocallyUpdated s' = false
  /\ writeBackDue (in_millisButtons i) (beforeWriteBack i s) = true.
Proof.
  intros s s'.
  assert (Hinv : Invariant s)
    by apply chipRuns_invariant, run_invariant, boot_invariant.
  assert (Hchip : rtc_time (rtc s) = in_rtc i)
    by (destruct (chipRuns_sync i (run inputs (boot chip startMillis)))
          as (_ & H & _); exact H).
  destruct (beforeWriteBack_sync i s Hinv)
    as ((_ & Hsec) & Hrtc & _ & (ev & Htr & Hquiet) & _).
  destruct (no_rtc_call_quiet ev Hquiet) as [Hnone _].
  pose proof (writeBackBlock_sync (in_millisButtons i) (beforeWriteBack i s))
    as Hwb. cbv zeta in Hwb.
  subst s'. rewrite handleTimeAdjustButtons_split.
  destruct (writeBackDue _ _) eqn:Hdue.
  - destruct Hwb as (Htr' & _ & Hf & _ & HcH & HcM & HcS & _).
    rewrite Htr, <- app_assoc in Htr'.
    rewrite (new_events_extends _ _ _ Htr'), adjusts_of_app, Hnone.
    simpl. intros [<-|[]].
    apply writeBackDue_true in Hdue as (Hpending & _).
    rewrite HcH, HcM, HcS, Hf, Hrtc, Hchip, (Hsec Hpending).
    repeat split.
  - rewrite Hwb, (new_events_extends _ _ _ Htr), Hnone. intros [].
Qed.

Lemma write_back_value_witness :
  let i := sample HIGH HIGH 5300 (onThatDay 9 15 36) in
  let s := chipRuns i (run (pressHourAt 100 (onThatDay 9 15 31))
                           (boot (chipAt 9 15 30) 0)) in
  let s' := handleTimeAdjustButtons i s in
  let dt := mkDateTime 2024 3 9 10 15 5 in
  dt = mkDateTime (dt_year (in_rtc i)) (dt_month (in_rtc i))
                  (dt_day (in_rtc i))
                  (currentHour s') (currentMinute s')
                  (BUTTON_INACTION_RTC_UPDATE_DELAY / MS_PER_SECOND)
  /\ dt_second dt = 5
  /\ adjusts_of (new_events s s') = [dt]
  /\ currentSecond s' = 0
  /\ timeLocallyUpdated s' = false
  /\ writeBackDue (in_millisButtons i) (beforeWriteBack i s) = true.
Proof.
  apply (write_back_value (chipAt 9 15 30) 0
           (pressHourAt 100 (onThatDay 9 15 31))
           (sample HIGH HIGH 5300 (onThatDay 9 15 36))
           (mkDateTime 2024 3 9 10 15 5)).
  vm_compute. left. reflexivity.
Defined.

(** C3 as stated fails: after one press of the hour button at 9:15, the
    write-back hands the chip 10:15:05, while the local time is 10:15:00. *)
Lemma write_back_seconds_counterexample :
  let i := sample HIGH HIGH 5300 (onThatDay 9 15 36) in
  let s := chipRuns i (run (pressHourAt 100 (onThatDay 9 15 31))
                           (boot (chipAt 9 15 30) 0)) in
  let s' := handleTimeAdjustButtons i s in
  adjusts_of (new_events s s') = [mkDateTime 2024 3 9 10 15 5]
  /\ currentHour s' = 10 /\ currentMinute s' = 15 /\ currentSecond s' = 0
  /\ adjusts_of (new_events s s')
     <> [mkDateTime 2024 3 9 (currentHour s') (currentMinute s')
                    (currentSecond s')].
Proof. vm_compute. repeat split. discriminate. Qed.

(** ** A run only adds to the trace *)

Lemma tick_extends (i : Input) (s : State) :
  exists ev, trace (tick i s) = trace s ++ ev.
Proof.
  unfold tick.
  pose proof (loop_sync i (chipRuns i s)) as Hloop. cbv zeta in Hloop.
  assert (Hh : exists ev,
             trace (handleTimeAdjustButtons i (chipRuns i s))
             = trace s ++ ev).
  { rewrite handleTimeAdjustButtons_split.
    pose proof (writeBackBlock_sync (in_millisButtons i)
                  (beforeWriteBack i (chipRuns i s))) as Hwb.
    cbv zeta in Hwb.
    assert (Hb : exists ev,
               trace (beforeWriteBack i (chipRuns i s)) = trace s ++ ev).
    { unfold beforeWriteBack.
      set (t := in_millisButtons i). set (vh := in_hourButton i).
      set (vm := in_minuteButton i). generalize (chipRuns_sync i s).
      generalize (chipRuns i s). intros c ((Hc & _) & _).
      destruct (sampleButtons_sync vh vm t c) as ((H1 & _) & _).
      set (s1 := sampleButtons vh vm t c) in *. clearbody s1.
      assert (H2 : exists ev, trace (hourButtonBlock vh t s1)
                              = trace s1 ++ ev).
      { open_state s1. blocks. simpl.
        destruct (wrap32 (t - hc) >? BUTTON_DEBOUNCE_MS), vh, hh; simpl;
          try destruct (t >=? nh); simpl;
          try (exists []; rewrite app_nil_r; reflexivity);
          eexists; rewrite <- app_assoc; reflexivity. }
      set (s2 := hourButtonBlock vh t s1) in *. clearbody s2.
      assert (H3 : exists ev, trace (minuteButtonBlock vm t s2)
                              = trace s2 ++ ev).
      { open_state s2. blocks. simpl.
        destruct (wrap32 (t - mc) >? BUTTON_DEBOUNCE_MS), vm, mh; simpl;
          try destruct (t >=? nm); simpl;
          try destruct (advanceMinute cH cM); simpl;
          try (exists []; rewrite app_nil_r; reflexivity);
          eexists; rewrite <- app_assoc; reflexivity. }
      destruct H2 as [ev2 H2]. destruct H3 as [ev3 H3].
      exists (ev2 ++ ev3). rewrite H3, H2, H1, Hc, app_assoc. reflexivity. }
    destruct Hb as [ev Hb].
    destruct (writeBackDue _ _).
    - destruct Hwb as (-> & _). rewrite Hb, <- app_assoc. eauto.
    - rewrite Hwb. eauto. }
  destruct Hh as [ev Hh].
  destruct (rtcQueryDue _ _ && negb _).
  - destruct Hloop as (render & -> & _). rewrite Hh, <- app_assoc. eauto.
  - rewrite Hloop. eauto.
Qed.

Lemma run_extends (inputs : list Input) :
  forall s, exists ev, trace (run inputs s) = trace s ++ ev.
Proof.
  induction inputs as [|i rest IH]; intro s.
  - exists []. simpl. rewrite app_nil_r. reflexivity.
  - rewrite run_cons. destruct (IH (tick i s)) as [ev2 ->].
    destruct (tick_extends i s) as [ev1 ->].
    exists (ev1 ++ ev2). rewrite app_assoc. reflexivity.
Qed.

Lemma count_app (p : Event -> bool) (xs ys : list Event) :
  count p (xs ++ ys) = (count p xs + count p ys)%nat.
Proof. unfold count. rewrite filter_app, length_app. reflexivity. Qed.

(** The advances between two states of a run are those counted at its end
    less those counted at its start. *)
Lemma advances_run (which : ButtonId) (inputs : list Input) (s : State) :
  advances which s (run inputs s)
  = Z.of_nat (count (advanceOf which) (trace (run inputs s)))
    - Z.of_nat (count (advanceOf which) (trace s)).
Proof.
  unfold advances. destruct (run_extends inputs s) as [ev Hev].
  rewrite (new_events_extends _ _ _ Hev), Hev, count_app. lia.
Qed.

Lemma staticsOf_tick (which : ButtonId) (i : Input) (s : State) :
  staticsOf which (tick i s)
  = buttonSample (pinOf which i) (in_millisButtons i) (staticsOf which s)
  /\ count (advanceOf which) (trace (tick i s))
     = (count (advanceOf which) (trace s)
        + (if fires (pinOf which i) (in_millisButtons i) (staticsOf which s)
           then 1 else 0))%nat.
Proof.
  destruct which; [apply hourButton_tick | apply minuteButton_tick].
Qed.

(** ** Debounce and repeat *)

(** C7 (as amended): for each button, whatever the other button, the chip
    and the loop's own counter reading do meanwhile, and from any state:
    (1) a level that never stays unchanged for more than the debounce
    interval (by the 32-bit counter, at most 50 ms since it last changed
    at every sample) fires no advance; (2) a button that was up and not
    being held and is then down at every sample, sampled once per
    millisecond, fires no advance during its first 51 samples (the level
    has to have lasted more than 50 ms), one at the 52nd sample, and one
    more every 1000 ms after that, as long as the counter plus the repeat
    period stays below 2^32. *)
Theorem button_debounce_and_repeat (which : ButtonId)
    (inputs : list Input) (s : State) (t0 : Z) :
  (neverSettles (pinOf which) (lastValue (staticsOf which s))
                (lastChange (staticsOf which s)) inputs ->
   advances which s (run inputs s) = 0)
  /\ (lastValue (staticsOf which s) = HIGH ->
      beingHeld (staticsOf which s) = false ->
      0 <= t0 ->
      t0 + Z.of_nat (length inputs) + BUTTON_HOLD_ACTION_REPEAT_PERIOD
        <= 2 ^ 32 ->
      heldFrom (pinOf which) t0 inputs ->
      advances which s (run inputs s)
      = advancesWhileHeld (Z.of_nat (length inputs))).
Proof.
  split.
  - intro H. rewrite advances_run.
    rewrite (neverSettles_no_advance (pinOf which) (staticsOf which)
               (advanceOf which) (staticsOf_tick which) inputs s H).
    lia.
  - intros Hup Hfree Ht0 Hfit Hheld. rewrite advances_run.
    rewrite (heldFrom_advances (pinOf which) (staticsOf which)
               (advanceOf which) (staticsOf_tick which) t0 inputs s 0);
      try lia.
    + change (advancesWhileHeld 0) with 0. simpl Z.add. lia.
    + replace (t0 + 0) with t0 by lia. exact Hheld.
    + unfold heldInvariant, BUTTON_DEBOUNCE_MS.
      repeat split; intros; try lia; assumption.
Qed.

Lemma button_debounce_and_repeat_witness :
  advances HourButton (boot (chipAt 9 15 30) 0)
    (run (bounceHour LOW 1000 40 (onThatDay 9 15 31))
         (boot (chipAt 9 15 30) 0)) = 0
  /\ advances MinuteButton (boot (chipAt 9 15 30) 0)
       (run (holdButton MinuteButton 1000 60 (onThatDay 9 15 31))
            (boot (chipAt 9 15 30) 0))
     = advancesWhileHeld 60.
Proof.
  split.
  - apply (proj1 (button_debounce_and_repeat HourButton
                    (bounceHour LOW 1000 40 (onThatDay 9 15 31))
                    (boot (chipAt 9 15 30) 0) 1000)).
    vm_compute. repeat split; discriminate.
  - apply (proj2 (button_debounce_and_repeat MinuteButton
                    (holdButton MinuteButton 1000 60 (onThatDay 9 15 31))
                    (boot (chipAt 9 15 30) 0) 1000)).
    + reflexivity.
    + reflexivity.
    + lia.
    + vm_compute. discriminate.
    + vm_compute. repeat split.
Defined.

(** A hold of a little over two seconds: three advances. *)
Example hold_for_2060_ms :
  advances HourButton (boot (chipAt 9 15 30) 0)
    (run (holdButton HourButton 1000 2060 (onThatDay 9 15 31))
         (boot (chipAt 9 15 30) 0)) = 3
  /\ advancesWhileHeld 2060 = 3.
Proof. vm_compute. split; reflexivity. Qed.

(** C7 as stated fails: a level that has lasted exactly the debounce
    interval is not yet taken as a press.  The hour button goes down at
    1000 ms and is sampled every millisecond up to 1050 ms, 50 ms later: no
    advance; the advance comes with the next sample, at 1051 ms. *)
Lemma debounce_is_strict_counterexample :
  let s := boot (chipAt 9 15 30) 0 in
  let chip := onThatDay 9 15 31 in
  map in_millisButtons (holdButton HourButton 1000 51 chip)
  = map Z.of_nat (seq 1000 51)
  /\ 1050 - 1000 >= BUTTON_DEBOUNCE_MS
  /\ advances HourButton s (run (holdButton HourButton 1000 51 chip) s) = 0
  /\ advances HourButton s (run (holdButton HourButton 1000 52 chip) s) = 1.
Proof. vm_compute. repeat split; discriminate. Qed.

(** ** Start-up *)

(** [setup] reads the chip once, whether or not it resets it first, and
    shows what it read. *)
Lemma setup_reads_once (chip : RTC_DS3231) (startMillis : Z) :
  let s := boot chip startMillis in
  let shown := if rtc_lostPower chip then RTC_RESET else rtc_time chip in
  nows_of (trace s) = [shown]
  /\ currentHour s = dt_hour shown
  /\ currentMinute s = dt_minute shown
  /\ currentSecond s = dt_second shown
  /\ localWordRegister s = encode (dt_hour shown) (dt_minute shown)
  /\ timeLocallyUpdated s = false.
Proof.
  unfold boot, setup, initial_state. blocks. simpl.
  destruct (rtc_lostPower chip); simpl; repeat split.
Qed.

(** C8: when the chip reports lost power at start-up, [setup] first hands
    [rtc.adjust] the reset time 2017-01-01T00:00:00, then reads the chip
    once and shows the time it read, so that the local time is the reset
    time, 0:00:00, when [setup] ends; and it records the start-up counter
    value as the time of the last query, so that the periodic query of
    [loop] is not due during the first 5000 ms. *)
Theorem power_loss_recovery (chip : RTC_DS3231) (startMillis : Z) :
  rtc_lostPower chip = true ->
  let s := boot chip startMillis in
  trace s = [EvRtcAdjust (mkDateTime 2017 1 1 0 0 0);
             EvRtcNow (mkDateTime 2017 1 1 0 0 0);
             EvFlush (getByte (encode 0 0) 0) (getByte (encode 0 0) 1)
                     (getByte (encode 0 0) 2)]
  /\ currentHour s = RTC_RESET_HOUR
  /\ currentMinute s = RTC_RESET_MINUTE
  /\ currentSecond s = RTC_RESET_SECOND
  /\ rtc s = mkRTC RTC_RESET false
  /\ words_of (localWordRegister s) = [TWELVE_H; OCLOCK]
  /\ lastRTCQueryTime s = startMillis
  /\ (forall d, 0 <= d <= RTC_QUERY_PERIOD_MILLIS ->
      rtcQueryDue (wrap32 (startMillis + d)) s = false).
Proof.
  intros Hlost s. subst s. unfold boot, setup, initial_state. blocks.
  simpl. rewrite Hlost. simpl. repeat split.
  intros d Hd. unfold rtcQueryDue, RTC_QUERY_PERIOD_MILLIS in *. simpl.
  rewrite wrap32_elapsed by lia. lia.
Qed.

Lemma power_loss_recovery_witness :
  let s := boot (mkRTC (mkDateTime 2000 1 1 0 0 7) true) 1234 in
  trace s = [EvRtcAdjust (mkDateTime 2017 1 1 0 0 0);
             EvRtcNow (mkDateTime 2017 1 1 0 0 0);
             EvFlush (getByte (encode 0 0) 0) (getByte (encode 0 0) 1)
                     (getByte (encode 0 0) 2)]
  /\ currentHour s = RTC_RESET_HOUR
  /\ currentMinute s = RTC_RESET_MINUTE
  /\ currentSecond s = RTC_RESET_SECOND
  /\ rtc s = mkRTC RTC_RESET false
  /\ words_of (localWordRegister s) = [TWELVE_H; OCLOCK]
  /\ lastRTCQueryTime s = 1234
  /\ (forall d, 0 <= d <= RTC_QUERY_PERIOD_MILLIS ->
      rtcQueryDue (wrap32 (1234 + d)) s = false).
Proof.
  apply (power_loss_recovery (mkRTC (mkDateTime 2000 1 1 0 0 7) true) 1234).
  reflexivity.
Defined.

(** ** Where the code leaves the ranges of the specification *)

(** C2: [advanceHour] wraps 23 to 0, but [advanceMinute] at 23:59 sets the
    minute to 0 and the hour to 24.  One press of the minute button at
    23:59 makes the local hour 24, and the write-back that follows hands
    the chip the hour 24. *)
Theorem advanceMinute_leaves_hour_range :
  advanceHour 23 = 0
  /\ advanceMinute 23 59 = (24, 0)
  /\ (let s := run (pressMinuteAt 100 (onThatDay 23 59 31))
                   (boot (chipAt 23 59 30) 0) in
      advances MinuteButton (boot (chipAt 23 59 30) 0) s = 1
      /\ currentHour s = 24 /\ currentMinute s = 0
      /\ adjusts_of
           (trace (tick (sample HIGH HIGH 5300 (onThatDay 23 59 36)) s))
         = [mkDateTime 2024 3 9 24 0 5]).
Proof. vm_compute. repeat split. Qed.

(** C4: the debounce guard and the query guard subtract counter readings,
    which is right across a wrap of the counter; the hold-repeat guard and
    the write-back guard compare the counter with a stored deadline, which
    is not.  An hour button held down from 600 ms before the counter wraps,
    sampled every millisecond for 60 ms, fires at its 52nd sample, sets the
    next advance to counter value 451, and then fires at every sample: 9
    advances in 60 ms, where the same hold at 1000 ms gives 1. *)
Theorem hold_repeat_wraps :
  let s := boot (chipAt 9 15 30) (2 ^ 32 - 3000) in
  let chip := onThatDay 9 15 31 in
  advances HourButton s (run (holdButton HourButton (2 ^ 32 - 600) 60 chip) s)
  = 9
  /\ nextHourAdvanceTime (run (holdButton HourButton (2 ^ 32 - 600) 52 chip) s)
     = 451
  /\ advances HourButton s (run (holdButton HourButton 1000 60 chip) s) = 1
  /\ advancesWhileHeld 60 = 1.
Proof. vm_compute. repeat split. Qed.

(** C5: one press of the hour button whose advance comes 100 ms before the
    counter wraps sets the write deadline to counter value 4900; the
    write-back then happens as soon as the button is seen released, 70 ms
    after the advance instead of more than 5000 ms after it.  The same
    press at 100 ms has written nothing by then. *)
Theorem write_deadline_wraps :
  let s := boot (chipAt 9 15 30) (2 ^ 32 - 3000) in
  let chip := onThatDay 9 15 31 in
  let press := pressHourAt (2 ^ 32 - 200) chip in
  map in_millisButtons press
  = [2 ^ 32 - 200; 2 ^ 32 - 100; 2 ^ 32 - 90; 2 ^ 32 - 30]
  /\ map (fun n => advances HourButton s (run (firstn n press) s))
         [1; 2; 3; 4]%nat
     = [0; 1; 1; 1]
  /\ updateRTCTime (run (firstn 2 press) s) = 4900
  /\ map (fun n => adjusts_of (new_events s (run (firstn n press) s)))
         [1; 2; 3; 4]%nat
     = [[]; []; []; [mkDateTime 2024 3 9 10 15 5]]
  /\ adjusts_of (new_events s (run (pressHourAt 100 chip) s)) = [].
Proof. vm_compute. repeat split. Qed.

(** ** One edit, then silence *)

Lemma new_events_trans (s1 s2 s3 : State) :
  (exists ev, trace s2 = trace s1 ++ ev) ->
  (exists ev, trace s3 = trace s2 ++ ev) ->
  new_events s1 s3 = new_events s1 s2 ++ new_events s2 s3.
Proof.
  intros [ev1 H1] [ev2 H2].
  rewrite (new_events_extends _ _ _ H1), (new_events_extends _ _ _ H2).
  apply new_events_extends. rewrite H2, H1, app_assoc. reflexivity.
Qed.

Lemma new_events_run_cons (i : Input) (rest : list Input) (s : State) :
  new_events s (run (i :: rest) s)
  = new_events s (tick i s) ++ new_events (tick i s) (run rest (tick i s)).
Proof.
  rewrite run_cons. apply new_events_trans;
    [apply tick_extends | apply run_extends].
Qed.

Lemma advances_nonneg (which : ButtonId) (s s' : State) :
  0 <= advances which s s'.
Proof. unfold advances. lia. Qed.

(** A silent run starts with an iteration in which neither button fires
    and goes on silently. *)
Lemma silent_cons (i : Input) (rest : list Input) (s : State) :
  silent (i :: rest) s ->
  fires (in_hourButton i) (in_millisButtons i) (hourButton s) = false
  /\ fires (in_minuteButton i) (in_millisButtons i) (minuteButton s) = false
  /\ silent rest (tick i s).
Proof.
  unfold silent. intros [Hh Hm].
  pose proof (advances_nonneg HourButton (tick i s) (run rest (tick i s))).
  pose proof (advances_nonneg MinuteButton (tick i s) (run rest (tick i s))).
  rewrite !advances_run in *. rewrite run_cons in Hh, Hm.
  destruct (staticsOf_tick HourButton i s) as [_ Hch].
  destruct (staticsOf_tick MinuteButton i s) as [_ Hcm].
  simpl pinOf in *. simpl staticsOf in *.
  rewrite Hch, Hcm in *.
  destruct (fires (in_hourButton i) _ _), (fires (in_minuteButton i) _ _);
    repeat split; try reflexivity; lia.
Qed.

(** An iteration in which no button fires and no adjustment is pending
    hands nothing to [rtc.adjust] and leaves none pending. *)
Lemma quiet_tick_idle (i : Input) (s : State) :
  Invariant s ->
  timeLocallyUpdated s = false ->
  fires (in_hourButton i) (in_millisButtons i) (hourButton s) = false ->
  fires (in_minuteButton i) (in_millisButtons i) (minuteButton s) = false ->
  timeLocallyUpdated (tick i s) = false
  /\ adjusts_of (new_events s (tick i s)) = [].
Proof.
  intros Hinv Hidle Hfh Hfm. unfold tick.
  pose proof (chipRuns_invariant i s Hinv) as Hinvc.
  destruct (chipRuns_sync i s) as ((Htrc & Hflagc & _) & _).
  destruct (chipRuns_buttons i s) as (Hhc & Hmc & _).
  set (c := chipRuns i s) in *. clearbody c.
  pose proof (beforeWriteBack_sync i c Hinvc) as Hb. cbv zeta in Hb.
  rewrite Hhc, Hmc, Hfh, Hfm in Hb. simpl in Hb.
  destruct Hb as (_ & _ & _ & _ & (Htrb & Hflagb & _)).
  pose proof (writeBackBlock_sync (in_millisButtons i) (beforeWriteBack i c))
    as Hwb. cbv zeta in Hwb.
  rewrite <- handleTimeAdjustButtons_split in Hwb.
  assert (Hnot : writeBackDue (in_millisButtons i) (beforeWriteBack i c)
                 = false).
  { unfold writeBackDue. rewrite Hflagb, Hflagc, Hidle. reflexivity. }
  rewrite Hnot in Hwb.
  pose proof (loop_sync i c) as Hloop. cbv zeta in Hloop.
  rewrite Hwb in Hloop.
  destruct (rtcQueryDue _ _ && negb _).
  - destruct Hloop as (render & Htr & Hquiet & _ & _ & _ & Hf & _).
    split; [exact Hf|].
    rewrite Htrb, Htrc in Htr.
    rewrite (new_events_extends _ _ _ Htr). simpl.
    destruct render; simpl in *; try reflexivity; discriminate.
  - rewrite Hloop. split; [congruence|].
    assert (Htr : trace (beforeWriteBack i c) = trace s ++ [])
      by (rewrite app_nil_r; congruence).
    rewrite (new_events_extends _ _ _ Htr). reflexivity.
Qed.

(** With no adjustment pending, a silent run hands nothing to
    [rtc.adjust] and leaves none pending. *)
Lemma silent_run_idle (inputs : list Input) :
  forall s,
  Invariant s -> timeLocallyUpdated s = false -> silent inputs s ->
  adjusts_of (new_events s (run inputs s)) = []
  /\ timeLocallyUpdated (run inputs s) = false.
Proof.
  induction inputs as [|i rest IH]; intros s Hinv Hidle Hsilent.
  - unfold new_events. simpl. rewrite skipn_all. auto.
  - destruct (silent_cons i rest s Hsilent) as (Hfh & Hfm & Hrest).
    destruct (quiet_tick_idle i s Hinv Hidle Hfh Hfm) as [Hidle' Hnone].
    destruct (IH (tick i s) (tick_invariant i s Hinv) Hidle' Hrest)
      as [Hnone' Hend].
    rewrite new_events_run_cons, adjusts_of_app, Hnone, Hnone'.
    rewrite run_cons. auto.
Qed.

(** An iteration in which no button fires while an adjustment is pending:
    either the write-back is not due, and the iteration makes no call at
    all and leaves the local time and the deadline as they are; or it is
    due, the counter is past the deadline, and the iteration starts by
    asking the chip for the date and handing [rtc.adjust] that date with
    the local hour and minute and 5 seconds. *)
Lemma quiet_tick_pending (i : Input) (s : State) :
  Invariant s ->
  timeLocallyUpdated s = true ->
  fires (in_hourButton i) (in_millisButtons i) (hourButton s) = false ->
  fires (in_minuteButton i) (in_millisButtons i) (minuteButton s) = false ->
  if writeBackDue (in_millisButtons i) (beforeWriteBack i (chipRuns i s))
  then
    updateRTCTime s < in_millisButtons i
    /\ timeLocallyUpdated (tick i s) = false
    /\ exists rest,
         new_events s (tick i s)
         = EvRtcNow (in_rtc i)
           :: EvRtcAdjust
                (mkDateTime (dt_year (in_rtc i)) (dt_month (in_rtc i))
                            (dt_day (in_rtc i))
                            (currentHour s) (currentMinute s) 5)
           :: rest
         /\ adjusts_of rest = []
  else
    new_events s (tick i s) = []
    /\ timeLocallyUpdated (tick i s) = true
    /\ updateRTCTime (tick i s) = updateRTCTime s
    /\ localTime (tick i s) = localTime s.
Proof.
  intros Hinv Hpending Hfh Hfm. unfold tick.
  pose proof (chipRuns_invariant i s Hinv) as Hinvc.
  destruct (chipRuns_sync i s)
    as ((Htrc & Hflagc & Hdc & HcHc & HcMc & HcSc) & Hchip & _).
  destruct (chipRuns_buttons i s) as (Hhc & Hmc & _).
  set (c := chipRuns i s) in *. clearbody c.
  pose proof (beforeWriteBack_sync i c Hinvc) as Hb. cbv zeta in Hb.
  rewrite Hhc, Hmc, Hfh, Hfm in Hb. simpl in Hb.
  destruct Hb as (_ & Hrtcb & _ & _ & (Htrb & Hflagb & Hdb & HcHb & HcMb & HcSb)).
  pose proof (writeBackBlock_sync (in_millisButtons i) (beforeWriteBack i c))
    as Hwb. cbv zeta in Hwb.
  rewrite <- handleTimeAdjustButtons_split in Hwb.
  pose proof (loop_sync i c) as Hloop. cbv zeta in Hloop.
  destruct (writeBackDue _ _) eqn:Hdue.
  - apply writeBackDue_true in Hdue as (_ & Hlate & _).
    destruct Hwb as (Htrh & Hrtch & Hflagh & _).
    split; [lia|].
    unfold writeBackValue in Htrh.
    rewrite Hrtcb, Hchip, Htrb, Htrc, HcHb, HcHc, HcMb, HcMc in Htrh.
    change (wrap8 (BUTTON_INACTION_RTC_UPDATE_DELAY / MS_PER_SECOND))
      with 5 in Htrh.
    destruct (rtcQueryDue _ _ && negb _).
    + destruct Hloop as (render & Htr & Hquiet & _ & _ & _ & Hf & _).
      split; [exact Hf|]. exists [EvRtcNow (rtc_time (rtc
        (handleTimeAdjustButtons i c))); render].
      rewrite Htrh, <- app_assoc in Htr.
      rewrite (new_events_extends _ _ _ Htr). simpl.
      split; [reflexivity|].
      destruct render; simpl in *; try reflexivity; discriminate.
    + rewrite Hloop. split; [exact Hflagh|]. exists [].
      rewrite (new_events_extends _ _ _ Htrh). auto.
  - rewrite Hwb in Hloop.
    assert (Hflag : timeLocallyUpdated (beforeWriteBack i c) = true)
      by congruence.
    rewrite Hflag, andb_false_r in Hloop. rewrite Hloop.
    assert (Htr : trace (beforeWriteBack i c) = trace s ++ [])
      by (rewrite app_nil_r; congruence).
    rewrite (new_events_extends _ _ _ Htr).
    unfold localTime. repeat split; congruence.
Qed.

(** After an edit, as long as nothing more is entered: either the
    adjustment is still pending at the end of the run, and the run has made
    no call at all (no read of the chip, no write, no change of the local
    time); or the run has written to the chip exactly once, in an iteration
    whose counter reading was past the write deadline, before which
    iteration it had made no call at all, and the adjustment is no longer
    pending. *)
Lemma edit_then_silence (inputs : list Input) :
  forall s,
  Invariant s -> timeLocallyUpdated s = true -> silent inputs s ->
  (timeLocallyUpdated (run inputs s) = true
   /\ new_events s (run inputs s) = []
   /\ localTime (run inputs s) = localTime s)
  \/ (timeLocallyUpdated (run inputs s) = false
      /\ exists before i after dt,
           inputs = before ++ i :: after
           /\ new_events s (run before s) = []
           /\ localTime (run before s) = localTime s
           /\ updateRTCTime s < in_millisButtons i
           /\ dt = mkDateTime (dt_year (in_rtc i)) (dt_month (in_rtc i))
                              (dt_day (in_rtc i))
                              (currentHour s) (currentMinute s) 5
           /\ adjusts_of (new_events s (run inputs s)) = [dt]).
Proof.
  induction inputs as [|i rest IH]; intros s Hinv Hpending Hsilent.
  - left. unfold new_events. simpl. rewrite skipn_all. auto.
  - destruct (silent_cons i rest s Hsilent) as (Hfh & Hfm & Hrest).
    pose proof (quiet_tick_pending i s Hinv Hpending Hfh Hfm) as Htick.
    pose proof (tick_invariant i s Hinv) as Hinv'.
    destruct (writeBackDue _ _).
    + destruct Htick as (Hlate & Hidle & more & Hev & Hmore).
      destruct (silent_run_idle rest (tick i s) Hinv' Hidle Hrest)
        as [Hnone Hend].
      right. rewrite run_cons. split; [exact Hend|].
      exists [], i, rest. eexists. split; [reflexivity|].
      split; [unfold new_events; simpl; apply skipn_all|].
      split; [reflexivity|]. split; [exact Hlate|].
      split; [reflexivity|].
      rewrite <- run_cons, new_events_run_cons, adjusts_of_app, Hnone, Hev.
      simpl. rewrite Hmore. reflexivity.
    + destruct Htick as (Hev & Hpending' & Hdeadline & Htime).
      destruct (IH (tick i s) Hinv' Hpending' Hrest)
        as [(Hflag & Hnone & Hsame)
           |(Hflag & before & j & after & dt & -> & Hnone & Hsame & Hlate
             & Hdt & Hadj)].
      * left. rewrite new_events_run_cons, Hev, Hnone, run_cons.
        repeat split; congruence.
      * right. rewrite run_cons. split; [exact Hflag|].
        exists (i :: before), j, after, dt.
        split; [reflexivity|].
        rewrite new_events_run_cons, Hev, Hnone, run_cons.
        split; [reflexivity|]. split; [congruence|].
        split; [lia|].
        unfold localTime in Htime. injection Htime as HcH HcM HcS.
        split; [congruence|].
        rewrite <- run_cons, new_events_run_cons, Hev. exact Hadj.
Qed.

(** The iteration of an edit: an adjustment is pending when it ends, its
    deadline 5000 ms (by the 32-bit counter) after the counter reading of
    the edit, and the iteration has not called the chip. *)
Lemma edit_tick (i : Input) (s : State) :
  Invariant s ->
  fires (in_hourButton i) (in_millisButtons i) (hourButton s)
  || fires (in_minuteButton i) (in_millisButtons i) (minuteButton s) = true ->
  timeLocallyUpdated (tick i s) = true
  /\ updateRTCTime (tick i s)
     = wrap32 (in_millisButtons i + BUTTON_INACTION_RTC_UPDATE_DELAY)
  /\ currentSecond (tick i s) = 0
  /\ no_rtc_call (new_events s (tick i s)) = true.
Proof.
  intros Hinv Hfired. unfold tick.
  pose proof (chipRuns_invariant i s Hinv) as Hinvc.
  destruct (chipRuns_sync i s) as ((Htrc & _) & _).
  destruct (chipRuns_buttons i s) as (Hhc & Hmc & _).
  set (c := chipRuns i s) in *. clearbody c.
  pose proof (beforeWriteBack_sync i c Hinvc) as Hb. cbv zeta in Hb.
  rewrite Hhc, Hmc, Hfired in Hb.
  destruct Hb as (_ & _ & _ & (ev & Htr & Hquiet) & Hf & Hd & Hs & Hheld).
  pose proof (writeBackBlock_sync (in_millisButtons i) (beforeWriteBack i c))
    as Hwb. cbv zeta in Hwb.
  rewrite <- handleTimeAdjustButtons_split in Hwb.
  assert (Hnot : writeBackDue (in_millisButtons i) (beforeWriteBack i c)
                 = false).
  { unfold writeBackDue.
    destruct (hourButtonBeingHeld _), (minuteButtonBeingHeld _);
      simpl in *; rewrite ?andb_false_r; try reflexivity; discriminate. }
  rewrite Hnot in Hwb.
  pose proof (loop_sync i c) as Hloop. cbv zeta in Hloop.
  rewrite Hwb, Hf, andb_false_r in Hloop. rewrite Hloop.
  rewrite Htrc in Htr. rewrite (new_events_extends _ _ _ Htr). auto.
Qed.

(** One press, then silence, away from the wrap of the counter: the
    write-back comes in an iteration whose counter reading is more than
    5000 ms after the reading at which the press fired, exactly once, and
    until that iteration the run calls neither [rtc.now] nor anything
    else. *)
Lemma one_press_then_silence (i0 : Input) (inputs : list Input) (s0 : State) :
  Invariant s0 ->
  fires (in_hourButton i0) (in_millisButtons i0) (hourButton s0)
  || fires (in_minuteButton i0) (in_millisButtons i0) (minuteButton s0)
  = true ->
  0 <= in_millisButtons i0 ->
  in_millisButtons i0 + BUTTON_INACTION_RTC_UPDATE_DELAY < 2 ^ 32 ->
  silent inputs (tick i0 s0) ->
  let s := tick i0 s0 in
  no_rtc_call (new_events s0 s) = true
  /\ ((timeLocallyUpdated (run inputs s) = true
       /\ new_events s (run inputs s) = []
       /\ localTime (run inputs s) = localTime s)
      \/ (timeLocallyUpdated (run inputs s) = false
          /\ exists before i after dt,
               inputs = before ++ i :: after
               /\ new_events s (run before s) = []
               /\ localTime (run before s) = localTime s
               /\ in_millisButtons i0 + BUTTON_INACTION_RTC_UPDATE_DELAY
                  < in_millisButtons i
               /\ dt = mkDateTime (dt_year (in_rtc i)) (dt_month (in_rtc i))
                                  (dt_day (in_rtc i))
                                  (currentHour s) (currentMinute s) 5
               /\ adjusts_of (new_events s (run inputs s)) = [dt])).
Proof.
  intros Hinv Hfired Hpos Hfit Hsilent s. subst s.
  destruct (edit_tick i0 s0 Hinv Hfired) as (Hpending & Hdeadline & _ & Hq).
  rewrite wrap32_small in Hdeadline
    by (unfold BUTTON_INACTION_RTC_UPDATE_DELAY in *; lia).
  split; [exact Hq|].
  destruct (edit_then_silence inputs (tick i0 s0)
              (tick_invariant i0 s0 Hinv) Hpending Hsilent)
    as [H|(Hflag & before & i & after & dt & H1 & H2 & H3 & H4 & H5 & H6)].
  - left. exact H.
  - right. split; [exact Hflag|]. exists before, i, after, dt.
    rewrite <- Hdeadline. auto 10.
Qed.

(** The lemma at work: the hour button is pressed at 9:15 and released;
    5100 ms after the advance the write-back has handed the chip 10:15:05,
    once. *)
Example one_press_then_silence_at_work :
  let s0 := run [sample LOW HIGH 100 (onThatDay 9 15 30)]
                (boot (chipAt 9 15 30) 0) in
  let s := tick (sample LOW HIGH 200 (onThatDay 9 15 30)) s0 in
  let inputs := [sample HIGH HIGH 210 (onThatDay 9 15 30);
                 sample HIGH HIGH 270 (onThatDay 9 15 30);
                 sample HIGH HIGH 5000 (onThatDay 9 15 35);
                 sample HIGH HIGH 5300 (onThatDay 9 15 35)] in
  timeLocallyUpdated (run inputs s) = false
  /\ adjusts_of (new_events s (run inputs s)) = [mkDateTime 2024 3 9 10 15 5].
Proof.
  intros s0 s inputs.
  assert (Hinv : Invariant s0) by apply run_invariant, boot_invariant.
  destruct (one_press_then_silence (sample LOW HIGH 200 (onThatDay 9 15 30))
              inputs s0 Hinv)
    as (_ & [(Hflag & _)|(Hflag & before & i & after & dt & _ & _ & _ & _
                          & _ & Hadj)]).
  - vm_compute. reflexivity.
  - vm_compute. discriminate.
  - vm_compute. reflexivity.
  - vm_compute. split; reflexivity.
  - vm_compute in Hflag. discriminate Hflag.
  - split; [exact Hflag|]. vm_compute. reflexivity.
Qed.

(** ** The counter's wrap-around, guard by guard *)

(** The debounce guards and the guard of the periodic query subtract two
    counter readings: [d] ms after the stored reading they see [d],
    whether or not the counter has wrapped since. *)
Lemma subtraction_guards_wrap_safe (last d : Z) (s : State) :
  0 <= d < 2 ^ 32 ->
  (wrap32 (wrap32 (last + d) - last) >? BUTTON_DEBOUNCE_MS)
  = (d >? BUTTON_DEBOUNCE_MS)
  /\ rtcQueryDue (wrap32 (lastRTCQueryTime s + d)) s
     = (d >? RTC_QUERY_PERIOD_MILLIS).
Proof.
  intro Hd. unfold rtcQueryDue. rewrite !wrap32_elapsed by exact Hd. auto.
Qed.

(** The hold-repeat guards and the write-back guard compare the counter
    with a stored deadline [t + period]: when that sum wraps, the guards
    hold at once, at every reading up to the wrap of the counter itself. *)
Lemma deadline_guards_wrap (t period d : Z) :
  0 <= t < 2 ^ 32 -> 0 <= period < 2 ^ 32 -> 2 ^ 32 <= t + period ->
  0 <= d -> t + d < 2 ^ 32 ->
  (wrap32 (t + d) >=? wrap32 (t + period)) = true
  /\ (0 < d -> (wrap32 (t + d) >? wrap32 (t + period)) = true).
Proof.
  intros Ht Hp Hover Hd Hfit.
  assert (Hdeadline : wrap32 (t + period) = t + period - 2 ^ 32).
  { unfold wrap32. symmetry. apply (Z.mod_unique _ _ 1); lia. }
  rewrite Hdeadline, wrap32_small by lia. split; [lia|]. intro. lia.
Qed.

(** * Further properties of the sketch *)

(** ** Bytes and the word register *)

Lemma getByte_is_digit (n k : Z) :
  0 <= k -> getByte n k = (n / 2 ^ (8 * k)) mod 2 ^ 8.
Proof.
  intro Hk. unfold getByte, BITS_PER_BYTE.
  change 255 with (Z.ones 8). rewrite Z.land_ones by lia.
  rewrite Z.shiftr_div_pow2 by lia.
  replace (k * 8) with (8 * k) by lia. reflexivity.
Qed.

Lemma getByte_digits (n : Z) :
  0 <= n < 2 ^ 32 ->
  (forall k, 0 <= k <= 3 -> 0 <= getByte n k <= 255)
  /\ n = getByte n 0 + 2 ^ 8 * getByte n 1 + 2 ^ 16 * getByte n 2
         + 2 ^ 24 * getByte n 3
  /\ (n < 2 ^ 24 ->
      getByte n 3 = 0
      /\ register_of_bytes (getByte n 0) (getByte n 1) (getByte n 2) = n).
Proof.
  intro Hn.
  assert (Hdigits : n = getByte n 0 + 2 ^ 8 * getByte n 1
                        + 2 ^ 16 * getByte n 2 + 2 ^ 24 * getByte n 3).
  { rewrite !getByte_is_digit by lia.
    change (8 * 0) with 0. change (8 * 1) with 8.
    change (8 * 2) with 16. change (8 * 3) with 24.
    change (2 ^ 0) with 1. rewrite Z.div_1_r.
    pose proof (Z.div_mod n (2 ^ 8) ltac:(lia)).
    pose proof (Z.div_mod (n / 2 ^ 8) (2 ^ 8) ltac:(lia)).
    pose proof (Z.div_mod (n / 2 ^ 8 / 2 ^ 8) (2 ^ 8) ltac:(lia)).
    rewrite !Z.div_div in * by lia.
    change (2 ^ 8 * 2 ^ 8) with (2 ^ 16) in *.
    change (2 ^ 16 * 2 ^ 8) with (2 ^ 24) in *.
    assert (Htop : 0 <= n / 2 ^ 24 < 2 ^ 8).
    { split; [apply Z.div_pos; lia|].
      apply Z.div_lt_upper_bound; lia. }
    rewrite (Z.mod_small (n / 2 ^ 24)) by exact Htop. lia. }
  assert (Hbyte : forall k, 0 <= k <= 3 -> 0 <= getByte n k <= 255).
  { intros k Hk. rewrite getByte_is_digit by lia.
    pose proof (Z.mod_pos_bound (n / 2 ^ (8 * k)) (2 ^ 8) ltac:(lia)). lia. }
  split; [exact Hbyte|]. split; [exact Hdigits|].
  intro Hsmall.
  assert (Htop : getByte n 3 = 0).
  { rewrite getByte_is_digit by lia. change (8 * 3) with 24.
    rewrite Z.div_small by lia. reflexivity. }
  split; [exact Htop|]. unfold register_of_bytes. lia.
Qed.

Lemma register_of_its_bytes (n : Z) :
  0 <= n < 2 ^ 24 ->
  register_of_bytes (getByte n 0) (getByte n 1) (getByte n 2) = n.
Proof.
  intro Hn. destruct (getByte_digits n) as (_ & _ & H); [lia|].
  apply H. lia.
Qed.

(** X1: the bytes [getByte] takes from a 32-bit number are its base-256
    digits: each is between 0 and 255 and the four of them put the number
    back together; of a number below 2^24 the top byte is 0, so the three
    bytes that are shifted out suffice. *)
Theorem getByte_reassembles (n : Z) :
  0 <= n < 2 ^ 32 ->
  (forall k, 0 <= k <= 3 -> 0 <= getByte n k <= 255)
  /\ n = getByte n 0 + 2 ^ 8 * getByte n 1 + 2 ^ 16 * getByte n 2
         + 2 ^ 24 * getByte n 3
  /\ (n < 2 ^ 24 ->
      getByte n 3 = 0
      /\ register_of_bytes (getByte n 0) (getByte n 1) (getByte n 2) = n).
Proof. exact (getByte_digits n). Qed.

Lemma getByte_reassembles_witness :
  register_of_bytes (getByte 1052673 0) (getByte 1052673 1)
                    (getByte 1052673 2) = 1052673.
Proof.
  destruct (getByte_reassembles 1052673 ltac:(lia)) as (_ & _ & H).
  destruct (H ltac:(lia)) as [_ Hback]. exact Hback.
Defined.

Lemma lor_below (a b n : Z) :
  0 <= n -> 0 <= a < 2 ^ n -> 0 <= b < 2 ^ n -> 0 <= Z.lor a b < 2 ^ n.
Proof.
  intros Hn Ha Hb.
  assert (Hnonneg : 0 <= Z.lor a b) by (apply Z.lor_nonneg; lia).
  split; [exact Hnonneg|].
  destruct (Z.eq_dec (Z.lor a b) 0) as [->|Hnz].
  - apply Z.pow_pos_nonneg; lia.
  - assert (Hpos : 0 < n).
    { destruct (Z.eq_dec n 0) as [->|]; [|lia].
      assert (a = 0) by (change (2 ^ 0) with 1 in Ha; lia).
      assert (b = 0) by (change (2 ^ 0) with 1 in Hb; lia).
      subst. now elim Hnz. }
    apply Z.log2_lt_pow2; [lia|].
    rewrite Z.log2_lor by lia.
    apply Z.max_lub_lt.
    + destruct (Z.eq_dec a 0) as [->|]; [simpl; lia|].
      apply Z.log2_lt_pow2; lia.
    + destruct (Z.eq_dec b 0) as [->|]; [simpl; lia|].
      apply Z.log2_lt_pow2; lia.
Qed.

Lemma word_mask_below (w : word_bit_map) :
  0 <= wrap32 (Z.shiftl 1 (bit_of w)) < 2 ^ 21.
Proof. destruct w; vm_compute; split; discriminate || reflexivity. Qed.

Lemma enableWord_below (w : word_bit_map) (reg n : Z) :
  21 <= n -> 0 <= reg < 2 ^ n -> 0 <= enableWord w reg < 2 ^ n.
Proof.
  intros Hn Hreg. unfold enableWord. apply lor_below; [lia | exact Hreg |].
  pose proof (word_mask_below w).
  assert (2 ^ 21 <= 2 ^ n) by (apply Z.pow_le_mono_r; lia). lia.
Qed.

(** X2: on a register that fits 32 bits, [enableWord] gives a register
    that fits 32 bits (the [|=] cannot overflow), in which the named word
    is lit and every other word is as before; enabling a word twice is
    enabling it once, the order of two enablings does not matter, and after
    [disableAllWords] no word is lit. *)
Theorem enableWord_algebra (w w' : word_bit_map) (reg : Z) :
  0 <= reg < 2 ^ 32 ->
  0 <= enableWord w reg < 2 ^ 32
  /\ contains (enableWord w reg) w = true
  /\ (w' <> w -> contains (enableWord w reg) w' = contains reg w')
  /\ enableWord w (enableWord w reg) = enableWord w reg
  /\ enableWord w (enableWord w' reg) = enableWord w' (enableWord w reg)
  /\ contains (disableAllWords reg) w' = false.
Proof.
  intro Hreg.
  split; [apply enableWord_below; [lia | exact Hreg]|].
  split; [rewrite contains_enableWord, Z.eqb_refl; reflexivity|].
  split.
  { intro Hne. rewrite contains_enableWord.
    destruct (bit_of w' =? bit_of w) eqn:E; [|reflexivity].
    apply Z.eqb_eq, bit_of_inj in E. contradiction. }
  unfold enableWord, disableAllWords.
  split; [rewrite <- Z.lor_assoc, Z.lor_diag; reflexivity|].
  split; [|apply contains_zero].
  rewrite <- !Z.lor_assoc.
  rewrite (Z.lor_comm (wrap32 (Z.shiftl 1 (bit_of w')))). reflexivity.
Qed.

Lemma enableWord_algebra_witness :
  0 <= enableWord HALF_M 8256 < 2 ^ 32
  /\ contains (enableWord HALF_M 8256) HALF_M = true
  /\ (TO <> HALF_M ->
      contains (enableWord HALF_M 8256) TO = contains 8256 TO)
  /\ enableWord HALF_M (enableWord HALF_M 8256) = enableWord HALF_M 8256
  /\ enableWord HALF_M (enableWord TO 8256)
     = enableWord TO (enableWord HALF_M 8256)
  /\ contains (disableAllWords 8256) TO = false.
Proof. apply (enableWord_algebra HALF_M TO 8256). lia. Defined.

(** The register of the encoder fits the 21 bits of the enumeration,
    whatever the hour and the minute. *)
Lemma encode_below (hour minute : Z) : 0 <= encode hour minute < 2 ^ 21.
Proof.
  unfold encode, updateLocalWordRegister, disableAllWords.
  set (h := if (if hour >? 12 then wrap8 (hour - 12) else hour) =? 0
            then 12 else (if hour >? 12 then wrap8 (hour - 12) else hour)).
  clearbody h.
  repeat match goal with
         | |- context [if ?c then _ else _] => destruct c
         end;
    repeat match goal with
           | |- context [match ?x with _ => _ end] => destruct x
           end;
    repeat (apply enableWord_below; [lia|]); lia.
Qed.

(** X3: whatever the hour and the minute, [updateDisplay] leaves the
    encoder's register in the local word register and makes exactly one
    flush; the register fits the 21 bits of the enumeration, so the three
    bytes the flush shifts out are the whole register: put together again
    they are the register. *)
Theorem updateDisplay_shows_register (hour minute : Z) (s : State) :
  localWordRegister (updateDisplay hour minute s) = encode hour minute
  /\ 0 <= encode hour minute < 2 ^ 21
  /\ new_events s (updateDisplay hour minute s)
     = [EvFlush (getByte (encode hour minute) 0)
                (getByte (encode hour minute) 1)
                (getByte (encode hour minute) 2)]
  /\ shown (new_events s (updateDisplay hour minute s))
     = [encode hour minute].
Proof.
  pose proof (encode_below hour minute) as Hfit.
  assert (Htr : trace (updateDisplay hour minute s)
                = trace s ++ [EvFlush (getByte (encode hour minute) 0)
                                      (getByte (encode hour minute) 1)
                                      (getByte (encode hour minute) 2)]).
  { open_state s. reflexivity. }
  split; [open_state s; reflexivity|]. split; [exact Hfit|].
  rewrite (new_events_extends _ _ _ Htr). split; [reflexivity|].
  unfold shown. simpl. f_equal. apply register_of_its_bytes. lia.
Qed.

(** ** The encoder on and off the clock face *)

(** The register of a time depends on it only through the hour modulo 12
    and the five-minute bucket of the minute. *)
Lemma face_checked :
  forall_below 24 (fun hour => forall_below 60 (fun minute =>
    encode hour minute =? encode (hour mod 12) (5 * (minute / 5)))) = true.
Proof. vm_compute. reflexivity. Qed.

(** X4: for every hour in [0,23] and minute in [0,59], the register is
    that of the hour modulo 12 and of the minute rounded down to a multiple
    of five: the display is the same in the morning and in the afternoon
    and changes only every five minutes. *)
Theorem encoder_face (hour minute : Z) :
  0 <= hour <= 23 -> 0 <= minute <= 59 ->
  encode hour minute = encode (hour mod 12) (5 * (minute / 5)).
Proof.
  intros Hh Hm. apply Z.eqb_eq.
  exact (checked_on_the_day _ face_checked hour minute Hh Hm).
Qed.

Lemma encoder_face_witness : encode 21 44 = encode (21 mod 12) (5 * (44 / 5)).
Proof. apply (encoder_face 21 44); lia. Defined.

(** A check that passed on every pair of bytes holds of each of them. *)
Lemma checked_on_bytes (P : Z -> Z -> bool) :
  forall_below 256 (fun hour => forall_below 256 (P hour)) = true ->
  forall hour minute, 0 <= hour <= 255 -> 0 <= minute <= 255 ->
  P hour minute = true.
Proof.
  intros H hour minute Hh Hm.
  apply (forall_below_spec 256 (P hour)); [|lia].
  apply (forall_below_spec 256 (fun hour => forall_below 256 (P hour)) H).
  lia.
Qed.

Lemma off_the_face_checked :
  forall_below 256 (fun hour => forall_below 256 (fun minute =>
    let r := encode hour minute in
    (if 60 <=? minute then r =? encode hour 59 else true)
    && (if hour =? 24 then r =? encode 12 minute else true)
    && (if 25 <=? hour
        then (length (hour_words_of r) =? 0)%nat
        else (length (hour_words_of r) =? 1)%nat)))
  = true.
Proof. vm_compute. reflexivity. Qed.

(** X5: what the encoder does with bytes that are no time of day.  A
    minute from 60 to 255 is shown as minute 59; hour 24 is shown as hour
    12; an hour from 25 to 255 lights no hour word at all, and only such an
    hour does. *)
Theorem encoder_off_the_face (hour minute : Z) :
  0 <= hour <= 255 -> 0 <= minute <= 255 ->
  (60 <= minute -> encode hour minute = encode hour 59)
  /\ (hour = 24 -> encode hour minute = encode 12 minute)
  /\ (hour_words_of (encode hour minute) = [] <-> 25 <= hour).
Proof.
  intros Hh Hm.
  pose proof (checked_on_bytes _ off_the_face_checked hour minute Hh Hm)
    as Hcell.
  cbv beta zeta in Hcell.
  apply andb_prop in Hcell as [Hcell Hwords].
  apply andb_prop in Hcell as [Hminute Hhour].
  split; [|split].
  - intro H. destruct (60 <=? minute) eqn:E; [|lia].
    apply Z.eqb_eq. exact Hminute.
  - intro H. destruct (hour =? 24) eqn:E; [|lia].
    apply Z.eqb_eq. exact Hhour.
  - destruct (25 <=? hour) eqn:E; apply Nat.eqb_eq in Hwords.
    + split; [lia|]. intros _. apply length_zero_iff_nil. exact Hwords.
    + split; [|lia]. intro Hnil. rewrite Hnil in Hwords. discriminate.
Qed.

Lemma encoder_off_the_face_witness :
  (60 <= 200 -> encode 24 200 = encode 24 59)
  /\ (24 = 24 -> encode 24 200 = encode 12 200)
  /\ (hour_words_of (encode 24 200) = [] <-> 25 <= 24).
Proof. apply (encoder_off_the_face 24 200); lia. Defined.

Lemma exclusive_checked :
  forall_below 256 (fun hour => forall_below 256 (fun minute =>
    let r := encode hour minute in
    (length (filter (contains r) [OCLOCK; PAST; TO]) =? 1)%nat
    && eqb (contains r OCLOCK) (length (minute_words_of r) =? 0)%nat
    && (length (minute_words_of r) <=? 2)%nat
    && (length (words_of r) <=? 4)%nat)) = true.
Proof. vm_compute. reflexivity. Qed.

(** X6: for every hour and minute byte, exactly one of OCLOCK, PAST and TO
    is lit; OCLOCK is lit exactly when no minute word is; at most two
    minute words and at most four words in all are lit. *)
Theorem encoder_exclusive (hour minute : Z) :
  0 <= hour <= 255 -> 0 <= minute <= 255 ->
  length (filter (contains (encode hour minute)) [OCLOCK; PAST; TO]) = 1%nat
  /\ (contains (encode hour minute) OCLOCK = true
      <-> minute_words_of (encode hour minute) = [])
  /\ (length (minute_words_of (encode hour minute)) <= 2)%nat
  /\ (length (words_of (encode hour minute)) <= 4)%nat.
Proof.
  intros Hh Hm.
  pose proof (checked_on_bytes _ exclusive_checked hour minute Hh Hm)
    as Hcell.
  cbv beta zeta in Hcell.
  apply andb_prop in Hcell as [Hcell Hall].
  apply andb_prop in Hcell as [Hcell Htwo].
  apply andb_prop in Hcell as [Hone Hoclock].
  apply Nat.eqb_eq in Hone. apply Nat.leb_le in Htwo, Hall.
  apply eqb_prop in Hoclock.
  split; [exact Hone|]. split; [|split; assumption].
  rewrite Hoclock, Nat.eqb_eq. apply length_zero_iff_nil.
Qed.

Lemma encoder_exclusive_witness :
  length (filter (contains (encode 6 32)) [OCLOCK; PAST; TO]) = 1%nat
  /\ (contains (encode 6 32) OCLOCK = true
      <-> minute_words_of (encode 6 32) = [])
  /\ (length (minute_words_of (encode 6 32)) <= 2)%nat
  /\ (length (words_of (encode 6 32)) <= 4)%nat.
Proof. apply (encoder_exclusive 6 32); lia. Defined.

(** ** The advance functions, repeated *)

Lemma advanceHour_checked :
  forall_below 256 (fun hour =>
    (0 <=? advanceHour hour) && (advanceHour hour <=? 23)
    && (if 23 <=? hour then advanceHour hour =? 0
        else advanceHour hour =? hour + 1)
    && (if hour <=? 23 then Nat.iter 24 advanceHour hour =? hour
        else true)) = true.
Proof. vm_compute. reflexivity. Qed.

(** X7: whatever byte the hour is, [advanceHour] gives an hour between 0
    and 23: the next hour below 23, and 0 from 23 on, so that one step
    brings an hour that has left the range back into it; from an hour of
    the day, twenty-four steps lead back to it. *)
Theorem advanceHour_cycle (hour : Z) :
  0 <= hour <= 255 ->
  0 <= advanceHour hour <= 23
  /\ (hour < 23 -> advanceHour hour = hour + 1)
  /\ (23 <= hour -> advanceHour hour = 0)
  /\ (hour <= 23 -> Nat.iter 24 advanceHour hour = hour).
Proof.
  intro Hh.
  pose proof (forall_below_spec 256 _ advanceHour_checked hour ltac:(lia))
    as Hcell.
  cbv beta in Hcell.
  apply andb_prop in Hcell as [Hcell Hiter].
  apply andb_prop in Hcell as [Hcell Hstep].
  apply andb_prop in Hcell as [Hlow Hhigh].
  split; [lia|].
  destruct (23 <=? hour) eqn:E23; destruct (hour <=? 23) eqn:Ele;
    repeat split; intros; try lia; apply Z.eqb_eq; assumption.
Qed.

Lemma advanceHour_cycle_witness :
  0 <= advanceHour 24 <= 23
  /\ (24 < 23 -> advanceHour 24 = 24 + 1)
  /\ (23 <= 24 -> advanceHour 24 = 0)
  /\ (24 <= 23 -> Nat.iter 24 advanceHour 24 = 24).
Proof. apply (advanceHour_cycle 24). lia. Defined.

Lemma pair_eqb_eq (p q : Z * Z) : pair_eqb p q = true -> p = q.
Proof.
  destruct p as [a b], q as [c d]. unfold pair_eqb. simpl.
  intro H. apply andb_prop in H as [H1 H2].
  apply Z.eqb_eq in H1, H2. congruence.
Qed.

Lemma advanceMinute_checked :
  forall_below 256 (fun hour => forall_below 256 (fun minute =>
    ((0 <=? snd (advanceMinute hour minute))
     && (snd (advanceMinute hour minute) <=? 59))
    && (implb (minute <? 59)
              (pair_eqb (advanceMinute hour minute) (hour, minute + 1))
        && implb (59 <=? minute)
                 (pair_eqb (advanceMinute hour minute)
                           (wrap8 (hour + 1), 0))))) = true.
Proof. vm_compute. reflexivity. Qed.

Lemma sixty_minutes_checked :
  forall_below 255 (fun hour => forall_below 60 (fun minute =>
    pair_eqb (Nat.iter 60 advanceMinutePair (hour, minute))
             (hour + 1, minute))) = true.
Proof. vm_compute. reflexivity. Qed.

(** X8: whatever bytes the hour and the minute are, [advanceMinute] gives
    a minute between 0 and 59: the next minute below 59, and from 59 on
    minute 0 with the hour raised by one (modulo 256, not modulo 24); from
    a minute of the hour, sixty steps lead back to it one hour later, also
    from hour 23, which they leave for hour 24. *)
Theorem advanceMinute_cycle (hour minute : Z) :
  0 <= hour <= 255 -> 0 <= minute <= 255 ->
  0 <= snd (advanceMinute hour minute) <= 59
  /\ (minute < 59 -> advanceMinute hour minute = (hour, minute + 1))
  /\ (59 <= minute -> advanceMinute hour minute = (wrap8 (hour + 1), 0))
  /\ (minute <= 59 -> hour <= 254 ->
      Nat.iter 60 advanceMinutePair (hour, minute) = (hour + 1, minute)).
Proof.
  intros Hh Hm.
  pose proof (checked_on_bytes _ advanceMinute_checked hour minute Hh Hm)
    as Hcell.
  cbv beta in Hcell.
  apply andb_prop in Hcell as [Hrange Hstep].
  apply andb_prop in Hrange as [Hlow Hhigh].
  apply andb_prop in Hstep as [Hbelow Hat].
  apply Z.leb_le in Hlow, Hhigh.
  split; [split; assumption|].
  split; [|split].
  - intro Hlt. apply pair_eqb_eq.
    apply (proj1 (implb_true_iff _ _) Hbelow). apply Z.ltb_lt. exact Hlt.
  - intro Hge. apply pair_eqb_eq.
    apply (proj1 (implb_true_iff _ _) Hat). apply Z.leb_le. exact Hge.
  - intros Hle Hfit. apply pair_eqb_eq.
    apply (forall_below_spec 60
             (fun minute =>
                pair_eqb (Nat.iter 60 advanceMinutePair (hour, minute))
                         (hour + 1, minute))); [|lia].
    apply (forall_below_spec 255 _ sixty_minutes_checked). lia.
Qed.

Lemma advanceMinute_cycle_witness :
  0 <= snd (advanceMinute 23 30) <= 59
  /\ (30 < 59 -> advanceMinute 23 30 = (23, 30 + 1))
  /\ (59 <= 30 -> advanceMinute 23 30 = (wrap8 (23 + 1), 0))
  /\ (30 <= 59 -> 23 <= 254 ->
      Nat.iter 60 advanceMinutePair (23, 30) = (23 + 1, 30)).
Proof. apply (advanceMinute_cycle 23 30); lia. Defined.

(** ** The two display tests *)

Lemma testDisplay1_loop_steps (fuel : nat) :
  forall i s,
  testDisplay1_loop fuel i s
  = option_map (fun steps => fold_left (fun s j => testDisplay1_body j s)
                                       steps s)
               (testDisplay1_steps fuel i).
Proof.
  induction fuel as [|fuel IH]; intros i s; simpl; [reflexivity|].
  destruct (i <=? WORD_BIT_MAX); [|reflexivity].
  rewrite IH. destruct (testDisplay1_steps fuel (wrap8 (i + 1)));
    reflexivity.
Qed.

Lemma testDisplay1_frames (steps : list Z) :
  forall s,
  trace (fold_left (fun s j => testDisplay1_body j s) steps s)
  = trace s
    ++ map (fun j => EvFlush (getByte (enableWordAt j 0) 0)
                             (getByte (enableWordAt j 0) 1)
                             (getByte (enableWordAt j 0) 2)) steps.
Proof.
  induction steps as [|j rest IH]; intro s; simpl.
  - rewrite app_nil_r. reflexivity.
  - rewrite IH.
    assert (Hbody : trace (testDisplay1_body j s)
                    = trace s ++ [EvFlush (getByte (enableWordAt j 0) 0)
                                          (getByte (enableWordAt j 0) 1)
                                          (getByte (enableWordAt j 0) 2)])
      by (open_state s; reflexivity).
    rewrite Hbody, <- app_assoc. reflexivity.
Qed.

(** X9: [testDisplay1] ends, after twenty-one turns of its loop: it makes
    twenty-one flushes, each showing one word alone, every word of the
    enumeration once, from OCLOCK (bit 0) up to TEN_M (bit 20), and leaves
    TEN_M in the local word register. *)
Theorem testDisplay1_shows_each_word (extra : nat) (s : State) :
  exists s',
    testDisplay1 (22 + extra) s = Some s'
    /\ shown (new_events s s') = map (fun w => enableWord w 0) (rev all_words)
    /\ map words_of (shown (new_events s s')) = map (fun w => [w]) (rev all_words)
    /\ localWordRegister s' = enableWord TEN_M 0
    /\ testDisplay1 21 s = None.
Proof.
  unfold testDisplay1. rewrite !testDisplay1_loop_steps.
  assert (Hsteps : testDisplay1_steps (22 + extra) 0
                   = Some (map Z.of_nat (seq 0 21)))
    by (vm_compute; reflexivity).
  rewrite Hsteps. cbn [option_map]. eexists. split; [reflexivity|].
  rewrite (new_events_extends _ _ _ (testDisplay1_frames _ s)).
  split; [vm_compute; reflexivity|].
  split; [vm_compute; reflexivity|].
  split; [open_state s; reflexivity|].
  vm_compute. reflexivity.
Qed.

Lemma testDisplay2_loop_steps (fuel : nat) :
  forall hour minute s,
  testDisplay2_loop fuel hour minute s
  = option_map (fun steps =>
                  fold_left (fun s time => updateDisplay (fst time)
                                                         (snd time) s)
                            steps s)
               (testDisplay2_steps fuel hour minute).
Proof.
  induction fuel as [|fuel IH]; intros hour minute s; simpl; [reflexivity|].
  destruct (hour <? 24); [|reflexivity].
  destruct (wrap8 (minute + 5) >=? 60); rewrite IH;
    match goal with
    | |- context [testDisplay2_steps fuel ?h ?m] =>
        destruct (testDisplay2_steps fuel h m)
    end; reflexivity.
Qed.

Lemma testDisplay2_frames (steps : list (Z * Z)) :
  forall s,
  trace (fold_left (fun s time => updateDisplay (fst time) (snd time) s)
                   steps s)
  = trace s
    ++ map (fun time =>
              EvFlush (getByte (encode (fst time) (snd time)) 0)
                      (getByte (encode (fst time) (snd time)) 1)
                      (getByte (encode (fst time) (snd time)) 2)) steps.
Proof.
  induction steps as [|time rest IH]; intro s; simpl.
  - rewrite app_nil_r. reflexivity.
  - rewrite IH.
    assert (Hbody : trace (updateDisplay (fst time) (snd time) s)
                    = trace s
                      ++ [EvFlush (getByte (encode (fst time) (snd time)) 0)
                                  (getByte (encode (fst time) (snd time)) 1)
                                  (getByte (encode (fst time) (snd time)) 2)])
      by (open_state s; reflexivity).
    rewrite Hbody, <- app_assoc. reflexivity.
Qed.

(** X10: [testDisplay2] ends, after 288 turns of its loop (the 24*60/5 of
    its comment): it makes 288 flushes, which show the times 00:00, 00:05,
    ..., 23:55 in order, each as the encoder gives it. *)
Theorem testDisplay2_shows_the_day (extra : nat) (s : State) :
  exists s',
    testDisplay2 (289 + extra) s = Some s'
    /\ shown (new_events s s')
       = map (fun n => encode (Z.of_nat n / 12) (5 * (Z.of_nat n mod 12)))
             (seq 0 288)
    /\ localWordRegister s' = encode 23 55
    /\ testDisplay2 288 s = None.
Proof.
  unfold testDisplay2. rewrite !testDisplay2_loop_steps.
  assert (Hsteps : testDisplay2_steps (289 + extra) 0 0
                   = Some (map (fun n => (Z.of_nat n / 12,
                                          5 * (Z.of_nat n mod 12)))
                               (seq 0 288)))
    by (vm_compute; reflexivity).
  rewrite Hsteps. cbn [option_map]. eexists. split; [reflexivity|].
  rewrite (new_events_extends _ _ _ (testDisplay2_frames _ s)).
  split; [vm_compute; reflexivity|].
  split; [|vm_compute; reflexivity].
  rewrite <- (firstn_skipn 287 (map _ (seq 0 288))), fold_left_app.
  open_state s. reflexivity.
Qed.

(** ** The latches show the local time *)

Lemma lastFlush_snoc (tr : list Event) (e : Event) :
  lastFlush (tr ++ [e])
  = match e with
    | EvFlush b0 b1 b2 => Some (b0, b1, b2)
    | _ => lastFlush tr
    end.
Proof.
  induction tr as [|x tr IH]; simpl.
  - destruct e; reflexivity.
  - rewrite IH. destruct e; try reflexivity.
Qed.

Ltac shown_last := rewrite ?lastFlush_snoc; simpl.

Lemma tick_displayConsistent (i : Input) (s : State) :
  displayConsistent s -> displayConsistent (tick i s).
Proof.
  unfold tick, loop, handleBrightnessControl, handleTimeAdjustButtons.
  set (t := in_millisButtons i). set (vh := in_hourButton i).
  set (vm := in_minuteButton i). intro H0.
  assert (H1 : displayConsistent (sampleButtons vh vm t (chipRuns i s))).
  { revert H0. unfold displayConsistent. open_state s. blocks. simpl.
    destruct vh, vm, hv, mv; simpl; auto. }
  set (s1 := sampleButtons vh vm t (chipRuns i s)) in *. clearbody s1.
  assert (H2 : displayConsistent (hourButtonBlock vh t s1)).
  { revert H1. unfold displayConsistent. open_state s1. blocks. simpl.
    destruct (wrap32 (t - hc) >? BUTTON_DEBOUNCE_MS), vh, hh; simpl;
      try destruct (t >=? nh); simpl; shown_last; auto. }
  set (s2 := hourButtonBlock vh t s1) in *. clearbody s2.
  assert (H3 : displayConsistent (minuteButtonBlock vm t s2)).
  { revert H2. unfold displayConsistent. open_state s2. blocks. simpl.
    destruct (wrap32 (t - mc) >? BUTTON_DEBOUNCE_MS), vm, mh; simpl;
      try destruct (t >=? nm); simpl;
      try destruct (advanceMinute cH cM); simpl; shown_last; auto. }
  set (s3 := minuteButtonBlock vm t s2) in *. clearbody s3.
  assert (H4 : displayConsistent (writeBackBlock t s3)).
  { revert H3. unfold displayConsistent. open_state s3. blocks. simpl.
    destruct (eqb tlu true && (t >? ur) && eqb hh false && eqb mh false);
      simpl; shown_last; auto. }
  set (s4 := writeBackBlock t s3) in *. clearbody s4.
  destruct (rtcQueryDue (in_millisLoop i) s4); [|exact H4].
  destruct (eqb (timeLocallyUpdated s4) false); [|exact H4].
  unfold displayConsistent. open_state s4. blocks. simpl. shown_last. auto.
Qed.

Lemma boot_displayConsistent (chip : RTC_DS3231) (startMillis : Z) :
  displayConsistent (boot chip startMillis).
Proof.
  unfold displayConsistent, boot, setup, initial_state. blocks. simpl.
  destruct (rtc_lostPower chip); simpl; auto.
Qed.

(** X11: at power-up and after every iteration of [loop], whatever the
    inputs, the local word register is the encoder's register of the local
    hour and minute, and the bytes of the last flush are the bytes of that
    register: no change of the local time is left unshown. *)
Theorem display_follows_local_time (chip : RTC_DS3231) (startMillis : Z)
    (inputs : list Input) :
  let s := run inputs (boot chip startMillis) in
  localWordRegister s = encode (currentHour s) (currentMinute s)
  /\ option_map (fun bytes => register_of_bytes (fst (fst bytes))
                                                (snd (fst bytes))
                                                (snd bytes))
                (lastFlush (trace s))
     = Some (encode (currentHour s) (currentMinute s)).
Proof.
  intro s.
  assert (H : displayConsistent s).
  { subst s. generalize (boot_displayConsistent chip startMillis).
    generalize (boot chip startMillis).
    induction inputs as [|i rest IH]; intros s0 H0; [exact H0|].
    rewrite run_cons. apply IH, tick_displayConsistent, H0. }
  destruct H as [Hreg Hlast]. split; [exact Hreg|].
  rewrite Hlast, Hreg. simpl. f_equal.
  pose proof (encode_below (currentHour s) (currentMinute s)).
  apply register_of_its_bytes. lia.
Qed.

(** ** The local minute and second stay in range *)

Lemma advanceHour_byte (hour : Z) :
  0 <= hour <= 255 -> 0 <= advanceHour hour <= 255.
Proof.
  intro H. unfold advanceHour, wrap8.
  destruct (hour <? 23) eqn:E; [|lia].
  apply Z.ltb_lt in E. rewrite Z.mod_small; lia.
Qed.

Lemma advanceMinute_byte (hour minute : Z) :
  0 <= hour <= 255 -> 0 <= minute <= 59 ->
  0 <= fst (advanceMinute hour minute) <= 255
  /\ 0 <= snd (advanceMinute hour minute) <= 59.
Proof.
  intros Hh Hm. unfold advanceMinute, wrap8.
  destruct (minute <? 59) eqn:E; simpl.
  - apply Z.ltb_lt in E. rewrite Z.mod_small; lia.
  - pose proof (Z.mod_pos_bound (hour + 1) (2 ^ 8) ltac:(lia)). lia.
Qed.

Lemma tick_minutesInRange (i : Input) (s : State) :
  timeOfDay (in_rtc i) -> minutesInRange s -> minutesInRange (tick i s).
Proof.
  unfold tick, loop, handleBrightnessControl, handleTimeAdjustButtons.
  set (t := in_millisButtons i). set (vh := in_hourButton i).
  set (vm := in_minuteButton i). intros Hchip H0.
  assert (H1 : minutesInRange (sampleButtons vh vm t (chipRuns i s))).
  { revert H0. unfold minutesInRange. unfold timeOfDay in Hchip.
    open_state s. blocks. simpl.
    destruct vh, vm, hv, mv; simpl; intros; lia. }
  set (s1 := sampleButtons vh vm t (chipRuns i s)) in *. clearbody s1.
  assert (H2 : minutesInRange (hourButtonBlock vh t s1)).
  { revert H1. unfold minutesInRange. open_state s1. blocks. simpl.
    intros (Hlocal & Hrtc). pose proof (advanceHour_byte cH ltac:(lia)).
    destruct (wrap32 (t - hc) >? BUTTON_DEBOUNCE_MS), vh, hh; simpl;
      try destruct (t >=? nh); simpl; lia. }
  set (s2 := hourButtonBlock vh t s1) in *. clearbody s2.
  assert (H3 : minutesInRange (minuteButtonBlock vm t s2)).
  { revert H2. unfold minutesInRange. open_state s2. blocks. simpl.
    intros (Hlocal & Hrtc).
    pose proof (advanceMinute_byte cH cM ltac:(lia) ltac:(lia)) as Hadv.
    destruct (wrap32 (t - mc) >? BUTTON_DEBOUNCE_MS), vm, mh; simpl;
      try destruct (t >=? nm); simpl;
      try destruct (advanceMinute cH cM); simpl in *; lia. }
  set (s3 := minuteButtonBlock vm t s2) in *. clearbody s3.
  assert (H4 : minutesInRange (writeBackBlock t s3)).
  { revert H3. unfold minutesInRange. open_state s3.
    unfold writeBackValue. blocks. simpl.
    destruct (eqb tlu true && (t >? ur) && eqb hh false && eqb mh false);
      simpl; intros; [|assumption].
    change (wrap8 (BUTTON_INACTION_RTC_UPDATE_DELAY / MS_PER_SECOND))
      with 5. lia. }
  set (s4 := writeBackBlock t s3) in *. clearbody s4.
  destruct (rtcQueryDue (in_millisLoop i) s4); [|exact H4].
  destruct (eqb (timeLocallyUpdated s4) false); [|exact H4].
  revert H4. unfold minutesInRange. open_state s4. blocks. simpl.
  intros; lia.
Qed.

Lemma boot_minutesInRange (chip : RTC_DS3231) (startMillis : Z) :
  rtc_lostPower chip = true \/ timeOfDay (rtc_time chip) ->
  minutesInRange (boot chip startMillis).
Proof.
  unfold minutesInRange, timeOfDay, boot, setup, initial_state. blocks.
  simpl. intros [Hlost|Hvalid].
  - rewrite Hlost. simpl. unfold RTC_RESET_HOUR, RTC_RESET_MINUTE,
      RTC_RESET_SECOND. lia.
  - destruct (rtc_lostPower chip); simpl;
      unfold RTC_RESET_HOUR, RTC_RESET_MINUTE, RTC_RESET_SECOND; lia.
Qed.

(** X12: when the chip reports times of day (or has lost power at
    start-up, and is reset), then at power-up and after every iteration of
    [loop], whatever the buttons and the counter do, the local minute and
    the local second are between 0 and 59, and the local hour is a byte. *)
Theorem local_minute_in_range (chip : RTC_DS3231) (startMillis : Z)
    (inputs : list Input) :
  rtc_lostPower chip = true \/ timeOfDay (rtc_time chip) ->
  Forall (fun i => timeOfDay (in_rtc i)) inputs ->
  let s := run inputs (boot chip startMillis) in
  0 <= currentMinute s <= 59
  /\ 0 <= currentSecond s <= 59
  /\ 0 <= currentHour s <= 255.
Proof.
  intros Hchip Hinputs s.
  assert (H : minutesInRange s).
  { subst s. generalize (boot_minutesInRange chip startMillis Hchip).
    generalize (boot chip startMillis).
    induction Hinputs as [|i rest Hi Hrest IH]; intros s0 H0; [exact H0|].
    rewrite run_cons. apply IH, tick_minutesInRange; assumption. }
  destruct H as ((Hh & Hm & Hs) & _). auto.
Qed.

Lemma local_minute_in_range_witness :
  let s := run (pressMinuteAt 100 (onThatDay 23 59 31))
               (boot (chipAt 23 59 30) 0) in
  0 <= currentMinute s <= 59
  /\ 0 <= currentSecond s <= 59
  /\ 0 <= currentHour s <= 255.
Proof.
  apply (local_minute_in_range (chipAt 23 59 30) 0
           (pressMinuteAt 100 (onThatDay 23 59 31))).
  - right. unfold timeOfDay. simpl. lia.
  - unfold pressMinuteAt, timeOfDay. repeat constructor; simpl; lia.
Defined.

(** ** The chip is left alone while a button is held *)

(** X13: in any run from power-up, an iteration of [loop] that ends with
    a button being held has called neither [rtc.now] nor [rtc.adjust], and
    an adjustment is pending when it ends: the local time is neither
    written back nor replaced from the chip in the middle of a hold. *)
Theorem chip_untouched_while_held (chip : RTC_DS3231) (startMillis : Z)
    (inputs : list Input) (i : Input) :
  let s := run inputs (boot chip startMillis) in
  hourButtonBeingHeld (tick i s) || minuteButtonBeingHeld (tick i s) = true ->
  no_rtc_call (new_events s (tick i s)) = true
  /\ timeLocallyUpdated (tick i s) = true.
Proof.
  intros s Hheld.
  assert (Hinv : Invariant s) by apply run_invariant, boot_invariant.
  unfold tick in *.
  pose proof (chipRuns_invariant i s Hinv) as Hinvc.
  destruct (chipRuns_sync i s) as ((Htrc & _) & _).
  set (c := chipRuns i s) in *. clearbody c.
  destruct (beforeWriteBack_sync i c Hinvc)
    as (Hinvb & _ & _ & (ev & Htr & Hquiet) & _).
  pose proof (writeBackBlock_sync (in_millisButtons i) (beforeWriteBack i c))
    as Hwb. cbv zeta in Hwb.
  rewrite <- handleTimeAdjustButtons_split in Hwb.
  pose proof (loop_sync i c) as Hloop. cbv zeta in Hloop.
  destruct (writeBackDue _ _) eqn:Hdue.
  - exfalso. apply writeBackDue_true in Hdue as (_ & _ & Hh0 & Hm0).
    destruct Hwb as (_ & _ & _ & _ & _ & _ & _ & _ & Hhh & Hmh).
    destruct (rtcQueryDue _ _ && negb _).
    + destruct Hloop as (? & _ & _ & _ & _ & _ & _ & _ & _ & Hhh' & Hmh').
      rewrite Hhh', Hmh', Hhh, Hmh, Hh0, Hm0 in Hheld. discriminate.
    + rewrite Hloop, Hhh, Hmh, Hh0, Hm0 in Hheld. discriminate.
  - rewrite Hwb in Hloop.
    destruct (rtcQueryDue _ _ && negb _) eqn:Hpoll.
    + exfalso.
      destruct Hloop as (? & _ & _ & _ & _ & _ & _ & _ & _ & Hhh' & Hmh').
      rewrite Hhh', Hmh' in Hheld.
      apply andb_prop in Hpoll as [_ Hflag]. apply negb_true_iff in Hflag.
      destruct Hinvb as [Hpending _]. rewrite (Hpending Hheld) in Hflag.
      discriminate.
    + rewrite Hloop in *. rewrite Htrc in Htr.
      rewrite (new_events_extends _ _ _ Htr). split; [exact Hquiet|].
      destruct Hinvb as [Hpending _]. exact (Hpending Hheld).
Qed.

Lemma chip_untouched_while_held_witness :
  let s := run (holdButton HourButton 1000 51 (onThatDay 9 15 31))
               (boot (chipAt 9 15 30) 0) in
  let i := sample LOW HIGH 1051 (onThatDay 9 15 31) in
  no_rtc_call (new_events s (tick i s)) = true
  /\ timeLocallyUpdated (tick i s) = true.
Proof.
  apply (chip_untouched_while_held (chipAt 9 15 30) 0
           (holdButton HourButton 1000 51 (onThatDay 9 15 31))
           (sample LOW HIGH 1051 (onThatDay 9 15 31))).
  vm_compute. reflexivity.
Defined.

(** ** Start-up with a chip that kept its power *)

(** X14: when the chip has not lost power, [setup] does not write to it:
    it reads it once, takes what it read as the local time, shows it, and
    leaves no adjustment pending and no button held. *)
Theorem setup_keeps_chip_time (chip : RTC_DS3231) (startMillis : Z) :
  rtc_lostPower chip = false ->
  let s := boot chip startMillis in
  adjusts_of (trace s) = []
  /\ nows_of (trace s) = [rtc_time chip]
  /\ rtc s = chip
  /\ localTime s = (dt_hour (rtc_time chip), dt_minute (rtc_time chip),
                    dt_second (rtc_time chip))
  /\ shown (trace s)
     = [encode (dt_hour (rtc_time chip)) (dt_minute (rtc_time chip))]
  /\ timeLocallyUpdated s = false
  /\ hourButtonBeingHeld s = false /\ minuteButtonBeingHeld s = false
  /\ lastRTCQueryTime s = startMillis.
Proof.
  intros Hkept s. subst s.
  unfold boot, setup, initial_state, localTime. blocks. simpl.
  rewrite Hkept. simpl. repeat split.
  rewrite !updateLocalWordRegister_clean. f_equal.
  apply register_of_its_bytes.
  pose proof (encode_below (dt_hour (rtc_time chip))
                           (dt_minute (rtc_time chip))).
  lia.
Qed.

Lemma setup_keeps_chip_time_witness :
  let s := boot (chipAt 9 15 30) 77 in
  adjusts_of (trace s) = []
  /\ nows_of (trace s) = [rtc_time (chipAt 9 15 30)]
  /\ rtc s = chipAt 9 15 30
  /\ localTime s = (dt_hour (rtc_time (chipAt 9 15 30)),
                    dt_minute (rtc_time (chipAt 9 15 30)),
                    dt_second (rtc_time (chipAt 9 15 30)))
  /\ shown (trace s)
     = [encode (dt_hour (rtc_time (chipAt 9 15 30)))
               (dt_minute (rtc_time (chipAt 9 15 30)))]
  /\ timeLocallyUpdated s = false
  /\ hourButtonBeingHeld s = false /\ minuteButtonBeingHeld s = false
  /\ lastRTCQueryTime s = 77.
Proof. apply (setup_keeps_chip_time (chipAt 9 15 30) 77). reflexivity. Defined.

(** ** The periodic query *)

Lemma fires_up (t : Z) (b : Button) : fires HIGH t b = false.
Proof. unfold fires. simpl. rewrite andb_false_r. reflexivity. Qed.

(** An iteration with both buttons up and no adjustment pending: the chip
    is read exactly when the query is due, and never written. *)
Lemma idle_tick (i : Input) (s : State) :
  Invariant s ->
  timeLocallyUpdated s = false ->
  in_hourButton i = HIGH -> in_minuteButton i = HIGH ->
  timeLocallyUpdated (tick i s) = false
  /\ adjusts_of (new_events s (tick i s)) = []
  /\ (if rtcQueryDue (in_millisLoop i) s
      then nows_of (new_events s (tick i s)) = [in_rtc i]
           /\ lastRTCQueryTime (tick i s) = in_millisLoop i
           /\ localTime (tick i s)
              = (dt_hour (in_rtc i), dt_minute (in_rtc i),
                 dt_second (in_rtc i))
      else nows_of (new_events s (tick i s)) = []
           /\ lastRTCQueryTime (tick i s) = lastRTCQueryTime s
           /\ localTime (tick i s) = localTime s).
Proof.
  intros Hinv Hidle Hh Hm.
  destruct (quiet_tick_idle i s Hinv Hidle) as [Hflag Hnone];
    [rewrite Hh; apply fires_up | rewrite Hm; apply fires_up |].
  split; [exact Hflag|]. split; [exact Hnone|].
  unfold tick in *.
  pose proof (chipRuns_invariant i s Hinv) as Hinvc.
  destruct (chipRuns_sync i s)
    as ((Htrc & Hflagc & _ & HcHc & HcMc & HcSc) & Hchip & Hlqc).
  destruct (chipRuns_buttons i s) as (Hhc & Hmc & _).
  set (c := chipRuns i s) in *. clearbody c.
  pose proof (beforeWriteBack_sync i c Hinvc) as Hb. cbv zeta in Hb.
  rewrite Hh, Hm, !fires_up in Hb. simpl in Hb.
  destruct Hb as (_ & Hrtcb & Hlqb & _
                  & (Htrb & Hflagb & _ & HcHb & HcMb & HcSb)).
  pose proof (writeBackBlock_sync (in_millisButtons i) (beforeWriteBack i c))
    as Hwb. cbv zeta in Hwb.
  rewrite <- handleTimeAdjustButtons_split in Hwb.
  assert (Hnot : writeBackDue (in_millisButtons i) (beforeWriteBack i c)
                 = false).
  { unfold writeBackDue. rewrite Hflagb, Hflagc, Hidle. reflexivity. }
  rewrite Hnot in Hwb.
  pose proof (loop_sync i c) as Hloop. cbv zeta in Hloop.
  rewrite Hwb in Hloop.
  assert (Hdue : rtcQueryDue (in_millisLoop i) (beforeWriteBack i c)
                 = rtcQueryDue (in_millisLoop i) s).
  { unfold rtcQueryDue. rewrite Hlqb, Hlqc. reflexivity. }
  rewrite Hdue, Hflagb, Hflagc, Hidle in Hloop. simpl negb in Hloop.
  rewrite andb_true_r in Hloop.
  destruct (rtcQueryDue (in_millisLoop i) s).
  - destruct Hloop as (render & Htr & Hquiet & HcH & HcM & HcS & _ & _
                       & Hlq & _).
    rewrite Htrb, Htrc in Htr.
    rewrite (new_events_extends _ _ _ Htr). unfold localTime.
    rewrite HcH, HcM, HcS, Hlq, Hrtcb, Hchip.
    repeat split.
    simpl. destruct render; simpl in *; try reflexivity; discriminate.
  - rewrite Hloop.
    assert (Htr : trace (beforeWriteBack i c) = trace s ++ [])
      by (rewrite app_nil_r; congruence).
    rewrite (new_events_extends _ _ _ Htr). unfold localTime.
    repeat split; congruence.
Qed.

Lemma idle_reads (t0 : Z) (inputs : list Input) :
  forall s k,
  0 <= k ->
  Invariant s ->
  timeLocallyUpdated s = false ->
  lastRTCQueryTime s = wrap32 (t0 + 5001 * (k / 5001)) ->
  idleFromb (t0 + k + 1) inputs = true ->
  Z.of_nat (length (nows_of (new_events s (run inputs s))))
  = (k + Z.of_nat (length inputs)) / 5001 - k / 5001
  /\ adjusts_of (new_events s (run inputs s)) = [].
Proof.
  induction inputs as [|i rest IH]; intros s k Hk Hinv Hidle Hlast Hrun.
  - unfold new_events. simpl. rewrite skipn_all. simpl.
    replace (k + 0) with k by lia. split; [lia | reflexivity].
  - simpl in Hrun.
    apply andb_prop in Hrun as [Hrun Hrest].
    apply andb_prop in Hrun as [Hrun Htime].
    apply andb_prop in Hrun as [Hh Hm].
    apply Z.eqb_eq in Htime.
    assert (Hh' : in_hourButton i = HIGH)
      by (destruct (in_hourButton i); [discriminate | reflexivity]).
    assert (Hm' : in_minuteButton i = HIGH)
      by (destruct (in_minuteButton i); [discriminate | reflexivity]).
    destruct (idle_tick i s Hinv Hidle Hh' Hm') as (Hflag & Hnone & Hpoll).
    assert (Helapsed : rtcQueryDue (in_millisLoop i) s
                       = (k + 1 - 5001 * (k / 5001) >? 5000)).
    { unfold rtcQueryDue, RTC_QUERY_PERIOD_MILLIS. rewrite Htime, Hlast.
      replace (t0 + k + 1)
        with (t0 + 5001 * (k / 5001) + (k + 1 - 5001 * (k / 5001))) by lia.
      unfold wrap32 at 2. rewrite <- Zplus_mod_idemp_l. fold (wrap32
        (t0 + 5001 * (k / 5001))).
      fold (wrap32 (wrap32 (t0 + 5001 * (k / 5001))
                    + (k + 1 - 5001 * (k / 5001)))).
      rewrite wrap32_elapsed; [reflexivity|].
      Z.div_mod_to_equations. lia. }
    rewrite Helapsed in Hpoll.
    rewrite new_events_run_cons, nows_of_app, adjusts_of_app, length_app,
      Nat2Z.inj_add, Hnone.
    simpl length. rewrite Nat2Z.inj_succ.
    replace (t0 + k + 1 + 1) with (t0 + (k + 1) + 1) in Hrest by lia.
    destruct (k + 1 - 5001 * (k / 5001) >? 5000) eqn:Edue.
    + destruct Hpoll as (Hnow & Hlq & _).
      destruct (IH (tick i s) (k + 1) ltac:(lia) (tick_invariant i s Hinv)
                  Hflag) as [Hreads Hadj]; [|exact Hrest|].
      { rewrite Hlq, Htime. f_equal. Z.div_mod_to_equations. lia. }
      rewrite Hreads, Hadj, Hnow. simpl length. split; [|reflexivity].
      Z.div_mod_to_equations. lia.
    + destruct Hpoll as (Hnow & Hlq & _).
      destruct (IH (tick i s) (k + 1) ltac:(lia) (tick_invariant i s Hinv)
                  Hflag) as [Hreads Hadj]; [|exact Hrest|].
      { rewrite Hlq, Hlast. f_equal. Z.div_mod_to_equations. lia. }
      rewrite Hreads, Hadj, Hnow. simpl length. split; [|reflexivity].
      Z.div_mod_to_equations. lia.
Qed.



(** Ten seconds of idling across the wrap of the counter: two reads. *)
Example idle_across_the_wrap :
  let s := boot (chipAt 9 15 30) (2 ^ 32 - 3000) in
  let inputs := idle (2 ^ 32 - 3000 + 1) (Z.to_nat 10002) (onThatDay 9 15 31) in
  map in_millisLoop (firstn 1 (skipn 2999 inputs)) = [0]
  /\ length (nows_of (new_events s (run inputs s))) = 2%nat.
Proof. vm_compute. split; reflexivity. Qed.

(** ** Every advance puts the write-back off *)

Lemma firesEither_false (i : Input) (s : State) :
  firesEither i s = false ->
  fires (in_hourButton i) (in_millisButtons i) (hourButton s) = false
  /\ fires (in_minuteButton i) (in_millisButtons i) (minuteButton s) = false.
Proof. unfold firesEither. intro H. apply orb_false_elim in H. exact H. Qed.

Lemma tick_deadlineFollows (i : Input) (s : State) (latest : option Z) :
  Invariant s -> deadlineFollows latest s ->
  deadlineFollows
    (if firesEither i s then Some (in_millisButtons i) else latest)
    (tick i s).
Proof.
  intros Hinv Hfollows. unfold deadlineFollows in *.
  destruct (firesEither i s) eqn:Hfired.
  - destruct (edit_tick i s Hinv Hfired) as (_ & Hdeadline & _).
    intros _. exists (in_millisButtons i). auto.
  - destruct (firesEither_false i s Hfired) as [Hfh Hfm].
    destruct (timeLocallyUpdated s) eqn:Hflag.
    + pose proof (quiet_tick_pending i s Hinv Hflag Hfh Hfm) as Htick.
      destruct (writeBackDue _ _).
      * destruct Htick as (_ & Hidle & _). rewrite Hidle. discriminate.
      * destruct Htick as (_ & _ & Hdeadline & _).
        intros _. destruct (Hfollows eq_refl) as (t & Hlatest & Ht).
        exists t. split; [exact Hlatest | congruence].
    + destruct (quiet_tick_idle i s Hinv Hflag Hfh Hfm) as [Hidle _].
      rewrite Hidle. discriminate.
Qed.

Lemma run_deadlineFollows (inputs : list Input) :
  forall s latest,
  Invariant s -> deadlineFollows latest s ->
  deadlineFollows (lastAdvanceTime inputs s latest) (run inputs s).
Proof.
  induction inputs as [|i rest IH]; intros s latest Hinv Hfollows;
    [exact Hfollows|].
  rewrite run_cons. simpl lastAdvanceTime.
  apply IH; [apply tick_invariant, Hinv|].
  apply tick_deadlineFollows; assumption.
Qed.

(** X16: in any run from power-up, an iteration of [loop] calls
    [rtc.adjust] only if some earlier iteration fired an advance, and only
    when the counter is past the counter reading of the latest advance
    plus 5000 ms (modulo 2^32): every advance, first press or repeat, of
    either button, puts the write-back off again.  When that sum does not
    wrap, the write comes more than 5000 ms after the latest advance. *)
Theorem write_back_after_latest_advance (chip : RTC_DS3231)
    (startMillis : Z) (inputs : list Input) (i : Input) (dt : DateTime) :
  let s := run inputs (boot chip startMillis) in
  In dt (adjusts_of (new_events s (tick i s))) ->
  exists t,
    lastAdvanceTime inputs (boot chip startMillis) None = Some t
    /\ firesEither i s = false
    /\ wrap32 (t + BUTTON_INACTION_RTC_UPDATE_DELAY) < in_millisButtons i
    /\ (0 <= t -> t + BUTTON_INACTION_RTC_UPDATE_DELAY < 2 ^ 32 ->
        t + BUTTON_INACTION_RTC_UPDATE_DELAY < in_millisButtons i).
Proof.
  intros s Hwritten.
  assert (Hboot : Invariant (boot chip startMillis)) by apply boot_invariant.
  assert (Hinv : Invariant s) by apply run_invariant, Hboot.
  assert (Hfollows : deadlineFollows
                       (lastAdvanceTime inputs (boot chip startMillis) None)
                       s).
  { apply run_deadlineFollows; [exact Hboot|].
    unfold deadlineFollows, boot, setup, initial_state. blocks. simpl.
    destruct (rtc_lostPower chip); simpl; discriminate. }
  destruct (firesEither i s) eqn:Hfired.
  - destruct (edit_tick i s Hinv Hfired) as (_ & _ & _ & Hquiet).
    destruct (no_rtc_call_quiet _ Hquiet) as [Hnone _].
    rewrite Hnone in Hwritten. contradiction.
  - destruct (firesEither_false i s Hfired) as [Hfh Hfm].
    destruct (timeLocallyUpdated s) eqn:Hflag.
    + pose proof (quiet_tick_pending i s Hinv Hflag Hfh Hfm) as Htick.
      destruct (writeBackDue _ _).
      * destruct Htick as (Hlate & _).
        destruct (Hfollows Hflag) as (t & Hlatest & Hdeadline).
        exists t. rewrite Hdeadline in Hlate.
        repeat split; try assumption.
        intros Hpos Hfit. unfold BUTTON_INACTION_RTC_UPDATE_DELAY in *.
        rewrite wrap32_small in Hlate; lia.
      * destruct Htick as (Hnone & _). rewrite Hnone in Hwritten.
        contradiction.
    + destruct (quiet_tick_idle i s Hinv Hflag Hfh Hfm) as [_ Hnone].
      rewrite Hnone in Hwritten. contradiction.
Qed.

Lemma write_back_after_latest_advance_witness :
  let inputs := pressHourAt 100 (onThatDay 9 15 31)
                ++ pressMinuteAt 3000 (onThatDay 9 15 33) in
  let i := sample HIGH HIGH 8200 (onThatDay 9 15 38) in
  let s := run inputs (boot (chipAt 9 15 30) 0) in
  exists t,
    lastAdvanceTime inputs (boot (chipAt 9 15 30) 0) None = Some t
    /\ firesEither i s = false
    /\ wrap32 (t + BUTTON_INACTION_RTC_UPDATE_DELAY) < in_millisButtons i
    /\ (0 <= t -> t + BUTTON_INACTION_RTC_UPDATE_DELAY < 2 ^ 32 ->
        t + BUTTON_INACTION_RTC_UPDATE_DELAY < in_millisButtons i).
Proof.
  apply (write_back_after_latest_advance (chipAt 9 15 30) 0
           (pressHourAt 100 (onThatDay 9 15 31)
            ++ pressMinuteAt 3000 (onThatDay 9 15 33))
           (sample HIGH HIGH 8200 (onThatDay 9 15 38))
           (mkDateTime 2024 3 9 10 16 5)).
  vm_compute. left. reflexivity.
Defined.

(** Two presses 2900 ms apart: 5100 ms after the first nothing has been
    written; the write comes after 5000 ms without a press. *)
Example second_press_puts_the_write_off :
  let inputs := pressHourAt 100 (onThatDay 9 15 31)
                ++ pressMinuteAt 3000 (onThatDay 9 15 33) in
  let s := run inputs (boot (chipAt 9 15 30) 0) in
  lastAdvanceTime inputs (boot (chipAt 9 15 30) 0) None = Some 3100
  /\ adjusts_of (new_events s
                   (tick (sample HIGH HIGH 5300 (onThatDay 9 15 35)) s)) = []
  /\ adjusts_of (new_events s
                   (tick (sample HIGH HIGH 8200 (onThatDay 9 15 38)) s))
     = [mkDateTime 2024 3 9 10 16 5].
Proof. vm_compute. repeat split. Qed.

(** ** Letting a button go *)

Lemma wrap32_range (z : Z) : 0 <= wrap32 z < 2 ^ 32.
Proof. unfold wrap32. apply Z.mod_pos_bound. lia. Qed.

Lemma elapsed_next (t c : Z) :
  wrap32 (wrap32 t - c) < 2 ^ 32 - 1 ->
  wrap32 (wrap32 (t + 1) - c) = wrap32 (wrap32 t - c) + 1.
Proof.
  intro H. pose proof (wrap32_range (wrap32 t - c)) as Hrange.
  unfold wrap32 in *. rewrite !Zminus_mod_idemp_l in *.
  replace (t + 1 - c) with (t - c + 1) by lia.
  rewrite <- Zplus_mod_idemp_l. apply Z.mod_small. lia.
Qed.

Lemma released_run (which : ButtonId) (inputs : list Input) :
  forall s t,
  releasedFromb (pinOf which) t inputs = true ->
  inputs <> [] ->
  beingHeld (staticsOf which s) = false
  \/ 51 - wrap32 (wrap32 t - changeTime HIGH (wrap32 t) (staticsOf which s))
     < Z.of_nat (length inputs) ->
  beingHeld (staticsOf which (run inputs s)) = false
  /\ lastValue (staticsOf which (run inputs s)) = HIGH
  /\ count (advanceOf which) (trace (run inputs s))
     = count (advanceOf which) (trace s).
Proof.
  induction inputs as [|i rest IH]; intros s t Hrun Hne Hsoon;
    [contradiction|].
  simpl in Hrun. apply andb_prop in Hrun as [Hrun Hrest].
  apply andb_prop in Hrun as [Hup Htime]. apply Z.eqb_eq in Htime.
  assert (Hup' : pinOf which i = HIGH)
    by (destruct (pinOf which i); [discriminate | reflexivity]).
  destruct (staticsOf_tick which i s) as [Hview Hcount].
  rewrite Hup', Htime in Hview, Hcount. rewrite fires_up in Hcount.
  rewrite Nat.add_0_r in Hcount. rewrite run_cons.
  set (b := staticsOf which s) in *.
  set (e := wrap32 (wrap32 t - changeTime HIGH (wrap32 t) b)) in *.
  assert (Hheld' : beingHeld (staticsOf which (tick i s))
                   = if e >? BUTTON_DEBOUNCE_MS then false else beingHeld b)
    by (rewrite Hview; reflexivity).
  assert (Hvalue' : lastValue (staticsOf which (tick i s)) = HIGH)
    by (rewrite Hview; reflexivity).
  assert (Hchange' : lastChange (staticsOf which (tick i s))
                     = changeTime HIGH (wrap32 t) b)
    by (rewrite Hview; reflexivity).
  pose proof (wrap32_range (wrap32 t - changeTime HIGH (wrap32 t) b))
    as Hrange. fold e in Hrange.
  unfold BUTTON_DEBOUNCE_MS in Hheld'.
  destruct rest as [|j rest'].
  - simpl run. rewrite Hheld', Hvalue', Hcount.
    repeat split. simpl length in Hsoon.
    destruct Hsoon as [->|Hsoon]; [destruct (e >? 50); reflexivity|].
    destruct (e >? 50) eqn:E; [reflexivity | lia].
  - destruct (IH (tick i s) (t + 1) Hrest ltac:(discriminate))
      as (Hh & Hv & Hc).
    + rewrite Hheld'.
      destruct Hsoon as [->|Hsoon]; [left; destruct (e >? 50); reflexivity|].
      destruct (e >? 50) eqn:E; [left; reflexivity|].
      right. unfold changeTime at 1. rewrite Hvalue'. simpl negb. cbv iota.
      rewrite Hchange', elapsed_next by (fold e; lia). fold e.
      simpl length in *. lia.
    + rewrite Hh, Hv, Hc, Hcount. auto.
Qed.

(** X17: for each button, from any state and whatever else happens: once
    the button has been up at 52 or more samples in a row, taken once per
    millisecond (the counter read modulo 2^32, so also across its wrap),
    it is no longer being held, its last sampled level is up, and it has
    fired no advance meanwhile. *)
Theorem release_makes_ready (which : ButtonId) (inputs : list Input)
    (s : State) (t0 : Z) :
  releasedFromb (pinOf which) t0 inputs = true ->
  (52 <= length inputs)%nat ->
  beingHeld (staticsOf which (run inputs s)) = false
  /\ lastValue (staticsOf which (run inputs s)) = HIGH
  /\ advances which s (run inputs s) = 0.
Proof.
  intros Hrun Hlong.
  destruct (released_run which inputs s t0 Hrun) as (Hh & Hv & Hc).
  - intro Hnil. rewrite Hnil in Hlong. simpl in Hlong. lia.
  - right.
    pose proof (wrap32_range
                  (wrap32 t0 - changeTime HIGH (wrap32 t0)
                                          (staticsOf which s))).
    lia.
  - rewrite advances_run, Hc. repeat split; try assumption. lia.
Qed.

Lemma release_makes_ready_witness :
  let s := run (holdButton HourButton 1000 60 (onThatDay 9 15 31))
               (boot (chipAt 9 15 30) 0) in
  let inputs := idle 1060 52 (onThatDay 9 15 31) in
  beingHeld (staticsOf HourButton (run inputs s)) = false
  /\ lastValue (staticsOf HourButton (run inputs s)) = HIGH
  /\ advances HourButton s (run inputs s) = 0.
Proof.
  apply (release_makes_ready HourButton
           (idle 1060 52 (onThatDay 9 15 31))
           (run (holdButton HourButton 1000 60 (onThatDay 9 15 31))
                (boot (chipAt 9 15 30) 0))
           1060).
  - vm_compute. reflexivity.
  - vm_compute. repeat constructor.
Defined.

(** A press, a release and a second press: two advances. *)
Example press_release_press :
  let s := boot (chipAt 9 15 30) 0 in
  let chip := onThatDay 9 15 31 in
  advances HourButton s
    (run (holdButton HourButton 1000 60 chip ++ idle 1060 52 chip
          ++ holdButton HourButton 1112 52 chip) s) = 2.
Proof. vm_compute. reflexivity. Qed.
